(** * Timeline assembly of the long-form video generator

    A shallow embedding of [scripts/timeline_assembler.py] (class
    [TimelineAssembler]) and of [AudioMixer.mix_voice_and_music] of
    [scripts/audio_mixer.py].

    Conventions of the embedding.

    - Durations and volumes are Python floats in the source.  They are
      modelled as exact rationals [Q]: every finite float is a rational,
      [max] and [min] are exact on floats, and [+]/[-] are taken without
      rounding.  NaN and infinities are not modelled.  The statements name
      a computed number by the expression the source computes it with
      ([voiceover_duration + 0.5 - video_duration + 0.5] for the black
      fill) and do not lean on identities of exact arithmetic that rounding
      breaks; the one bound that needs arithmetic, that the faded video and
      the black fill together reach the target of the splice, has a margin
      of half a second.
    - [pathlib.Path] values are strings; [a / b] joins with a slash.
    - An argument vector handed to [subprocess.run] is a [list Arg]: one
      token per list element of the source, in the same order.  Tokens that
      the source builds with an f-string around a number keep the number
      ([Num], [ColorSrc], [FadeOut], [FilterComplex]) instead of its decimal
      text.
    - The external programs (ffmpeg, ffprobe) are an arbitrary function
      [tool] of the command and the current world; it yields the exit status,
      the parsed standard output and the file system it leaves behind.
      Nothing is assumed about it.  Every command executed is appended to the
      world's [history].
    - [print] calls and the [mkdir] calls of the constructor are not
      modelled; they do not influence any result.  A call to an external
      program always completes: an exception raised by [subprocess.run]
      itself (a missing executable) is outside the model. *)

From Stdlib Require Import ZArith QArith Qminmax Lqa Lia Ascii String DecimalString.
From Stdlib Require Import DecimalN.
From stdpp Require Import base list sorting gmap strings.

Open Scope Q_scope.
Open Scope string_scope.

(** ** Python built-ins on numbers *)

(** [max(a, b)]: the first maximal argument, i.e. [b] only if [b > a]. *)
Definition py_max (a b : Q) : Q :=
  match b ?= a with
  | Gt => b
  | _ => a
  end.

(** [min(a, b)]: the first minimal argument, i.e. [b] only if [b < a]. *)
Definition py_min (a b : Q) : Q :=
  match b ?= a with
  | Lt => b
  | _ => a
  end.

(** ** Paths and text formatting *)

Abbreviation Path := string.

(** [d / name] of pathlib. *)
Definition path_join (d : Path) (name : string) : Path := d +:+ "/" +:+ name.
Infix "//" := path_join (at level 40, left associativity).

(** Left-pads [s] with zeros up to [width] characters. *)
Definition zfill (width : nat) (s : string) : string :=
  String.concat "" (replicate (width - String.length s)%nat "0") +:+ s.

(** [f"{i:03d}"]: the sign, then the digits zero-padded so that the whole
    field is at least three characters wide. *)
Definition fmt_03d (i : Z) : string :=
  let digits := NilZero.string_of_uint (N.to_uint (Z.abs_N i)) in
  if (i <? 0)%Z then "-" +:+ zfill 2 digits else zfill 3 digits.

(** ** Command lines *)

Inductive AmixDuration := DurLongest | DurShortest | DurFirst.

(** A stream specifier such as [1:a], or a link label such as [[vo]]. *)
Inductive Pad :=
| InputStream (file : nat) (kind : string)
| Label (name : string).

(** One audio filter of a chain. *)
Inductive Filter :=
| Aresample (rate : Z)          (* aresample=<rate> *)
| PanStereo                     (* pan=stereo|c0=c0|c1=c0 *)
| Volume (v : Q)                (* volume=<v> *)
| Amix (inputs : nat) (duration : AmixDuration)
       (dropout_transition : option Z) (normalize : bool).
                                (* amix=inputs=..:duration=..[:dropout_transition=..]:normalize=0|1 *)

(** [[src1][src2]f1,f2,...[sink]]: one semicolon-separated part of a
    -filter_complex graph. *)
Record Chain := MkChain {
  srcs : list Pad;
  filters : list Filter;
  sink : string
}.

Inductive Arg :=
| Lit (s : string)                      (* a literal, or str(path) *)
| Num (q : Q)                           (* str(x) for a float x *)
| Int (z : Z)                           (* str(n) for an int n *)
| Stream (p : Pad)                      (* the value of a -map option *)
| AudioFilters (f : list Filter)        (* the value of an -af option *)
| ColorSrc (w h : Z) (d : Q)            (* f"color=c=black:s={w}x{h}:d={d}:r=24" *)
| FadeOut (st : Q)                      (* f"fade=t=out:st={st}:d=1.5:color=black" *)
| FilterComplex (g : list Chain).       (* the -filter_complex string *)

Abbreviation Cmd := (list Arg).

(** Reading a command line the way ffmpeg does: a word starting with a dash
    is an option; [-y], [-an] and [-shortest] stand alone and every other
    option takes the next argument as its value; the last argument is the
    file operand. *)
Definition is_option (s : string) : bool :=
  match s with
  | String "-"%char _ => true
  | _ => false
  end.

Definition is_switch (s : string) : bool :=
  existsb (String.eqb s) ["-y"; "-an"; "-shortest"].

Fixpoint options (cmd : Cmd) : list (string * option Arg) :=
  match cmd with
  | [] | [_] => []
  | Lit s :: ((v :: rest') as rest) =>
      if is_switch s then (s, None) :: options rest
      else if is_option s then (s, Some v) :: options rest'
      else options rest
  | _ :: rest => options rest
  end.

(** The values of every occurrence of the option [flag]. *)
Definition option_values (flag : string) (cmd : Cmd) : list Arg :=
  omap (λ o, if String.eqb (fst o) flag then snd o else None) (options cmd).

(** The value of the first occurrence of [flag]. *)
Definition flag_value (flag : string) (cmd : Cmd) : option Arg :=
  head (option_values flag cmd).

Definition has_flag (flag : string) (cmd : Cmd) : bool :=
  existsb (λ o, String.eqb (fst o) flag) (options cmd).

(** ** The world outside the interpreter *)

Inductive File :=
| Media                          (* an opaque audio or video file *)
| Text (content : list string).  (* a text file, as the strings written *)

(** What the code reads from a finished process' standard output, after
    [json.loads] and the subscripts it applies. *)
Inductive Stdout :=
| NoJson                              (* unparsable, or a key is missing *)
| FormatJson (duration : Q)           (* {"format": {"duration": d}} *)
| StreamsJson (width height : Z)      (* {"streams": [{"width": w, "height": h}]} *)
| AudioJson (channels : Z).           (* {"streams": [{"channels": c, ..}], ..} *)

Record Completed := MkCompleted {
  returncode : Z;
  stdout : Stdout
}.

Record World := MkWorld {
  fs : gmap string File;
  cwd : string;
  history : list (list Arg)
}.

(** A stateful computation over the world. *)
Definition M (A : Type) : Type := World → A * World.

Definition ret {A : Type} (a : A) : M A := λ w, (a, w).

Definition bind {A B : Type} (m : M A) (f : A → M B) : M B :=
  λ w, let '(a, w') := m w in f a w'.

Notation "x <- m ;; k" := (bind m (λ x, k))
  (at level 100, m at next level, k at level 200, right associativity).

(** [p.exists()] *)
Definition path_exists (p : Path) : M bool :=
  λ w, (bool_decide (is_Some (fs w !! p)), w).

(** [p.absolute()]: an absolute path is kept, a relative one is anchored at
    the working directory. *)
Definition is_absolute (p : Path) : bool :=
  match p with
  | String "/"%char _ => true
  | _ => false
  end.

Definition absolute (p : Path) : M Path :=
  λ w, (if is_absolute p then p else cwd w // p, w).

(** [with open(p, "w") as f] followed by the [f.write] calls: the file is
    created (or truncated) and holds the strings written. *)
Definition write_text (p : Path) (content : list string) : M unit :=
  λ w, (tt, MkWorld (<[p := Text content]> (fs w)) (cwd w) (history w)).

Definition newline : string := String "010"%char EmptyString.

(** [str(p)] for an optional path: [str(None)] is the text [None]. *)
Definition py_str (p : option string) : string := default "None" p.

(** ** Data model *)

(** One element of [voiceover_segments]: a dict read only through
    [.get("text", "")], [.get("start", 0)] and [.get("end", 0)]; a field is
    [None] when the key is absent. *)
Record VoiceoverSegment := MkVoiceoverSegment {
  seg_text : option string;
  seg_start : option Q;
  seg_end : option Q
}.

Record TimelineSegment := MkTimelineSegment {
  index : Z;
  voiceover_text : string;
  vo_start : Q;
  vo_end : Q;
  video_path : option string;
  trimmed_video_path : option string
}.

(** The [duration] property. *)
Definition duration (s : TimelineSegment) : Q := vo_end s - vo_start s.

Record Timeline := MkTimeline {
  segments : list TimelineSegment;
  voiceover_path : option string;
  voiceover_duration : Q;
  music_path : option string
}.

(** The assembler object: [self.temp_dir] and [self.output_dir]. *)
Record TimelineAssembler := MkTimelineAssembler {
  temp_dir : string;
  output_dir : string
}.

(** How a call ends: with a value, or with an exception of the named class. *)
Inductive Outcome (A : Type) :=
| Returned (a : A)
| Raised (exn : string).
Arguments Returned {A} a.
Arguments Raised {A} exn.

Section Assembler.

(** The external programs. *)
Context (tool : list Arg → World → Completed * gmap string File).

(** [subprocess.run(cmd, capture_output=True, ...)] *)
Definition subprocess_run (cmd : Cmd) : M Completed :=
  λ w, let '(r, fs') := tool cmd w in
       (r, MkWorld fs' (cwd w) (history w ++ [cmd])%list).

(** ** build_timeline *)

(** The loop [for i, (segment, clip_path) in enumerate(zip(...))], started
    at index [i]. *)
Fixpoint zip_segments (i : Z) (voiceover_segments : list VoiceoverSegment)
    (video_clips : list string) : list TimelineSegment :=
  match voiceover_segments, video_clips with
  | segment :: segs, clip_path :: clips =>
      MkTimelineSegment i
        (default "" (seg_text segment))
        (default 0 (seg_start segment))
        (default 0 (seg_end segment))
        (Some clip_path) None
      :: zip_segments (i + 1)%Z segs clips
  | _, _ => []
  end.

Definition build_timeline (voiceover_segments : list VoiceoverSegment)
    (video_clips : list string) (voiceover_path : string)
    (voiceover_duration : Q) (music_path : option string)
    : Outcome Timeline :=
  Returned (MkTimeline (zip_segments 0 voiceover_segments video_clips)
              (Some voiceover_path) voiceover_duration music_path).

(** ** trim_clip_to_duration *)

Definition probe_duration_cmd (p : Path) : Cmd :=
  [Lit "ffprobe"; Lit "-v"; Lit "error";
   Lit "-show_entries"; Lit "format=duration";
   Lit "-of"; Lit "json";
   Lit p].

Definition trim_cmd (input_path output_path : Path) (final_duration : Q) : Cmd :=
  [Lit "ffmpeg"; Lit "-y";
   Lit "-i"; Lit input_path;
   Lit "-t"; Num final_duration;
   Lit "-c:v"; Lit "libx264"; Lit "-preset"; Lit "fast"; Lit "-crf"; Lit "23";
   Lit "-an";
   Lit output_path].

Definition trim_clip_to_duration (input_path output_path : Path)
    (target_duration min_duration : Q) : M bool :=
  result <- subprocess_run (probe_duration_cmd input_path) ;;
  let source_duration :=
    match stdout result with
    | FormatJson d => d
    | _ => 4.0
    end in
  let effective_duration := py_max target_duration min_duration in
  let final_duration := py_min effective_duration source_duration in
  result <- subprocess_run (trim_cmd input_path output_path final_duration) ;;
  ret (returncode result =? 0)%Z.

(** ** prepare_timeline_clips *)

Definition set_trimmed_video_path (p : option string) (s : TimelineSegment)
    : TimelineSegment :=
  MkTimelineSegment (index s) (voiceover_text s) (vo_start s) (vo_end s)
    (video_path s) p.

Definition set_segments (l : list TimelineSegment) (t : Timeline) : Timeline :=
  MkTimeline l (voiceover_path t) (voiceover_duration t) (music_path t).

(** The body of the loop over [timeline.segments]; the result is the segment
    as the iteration leaves it. *)
Definition prepare_segment (self : TimelineAssembler) (min_duration : Q)
    (segment : TimelineSegment) : M TimelineSegment :=
  match video_path segment with
  | None => ret segment                                  (* continue *)
  | Some source =>
      present <- path_exists source ;;
      if negb present then ret segment                   (* continue *)
      else
        let trimmed_path :=
          temp_dir self // ("trimmed_" +:+ fmt_03d (index segment) +:+ ".mp4") in
        let vo_duration := duration segment in
        let effective_duration := py_max vo_duration min_duration in
        ok <- trim_clip_to_duration source trimmed_path effective_duration
               min_duration ;;
        if ok : bool
        then ret (set_trimmed_video_path (Some trimmed_path) segment)
        else ret (set_trimmed_video_path (video_path segment) segment)
  end.

Fixpoint prepare_segments (self : TimelineAssembler) (min_duration : Q)
    (segs : list TimelineSegment) : M (list TimelineSegment) :=
  match segs with
  | [] => ret []
  | segment :: rest =>
      segment' <- prepare_segment self min_duration segment ;;
      rest' <- prepare_segments self min_duration rest ;;
      ret (segment' :: rest')
  end.

(** Returns the flag of the source together with the timeline as mutated. *)
Definition prepare_timeline_clips (self : TimelineAssembler)
    (timeline : Timeline) (min_duration : Q) : M (bool * Timeline) :=
  segs <- prepare_segments self min_duration (segments timeline) ;;
  ret (true, set_segments segs timeline).

(** ** concatenate_clips *)

Definition file_line (p : Path) : string := "file '" +:+ p +:+ "'" +:+ newline.

(** One iteration of the loop over [timeline.segments]: what it writes. *)
Definition concat_line (segment : TimelineSegment) : M (list string) :=
  match trimmed_video_path segment with
  | None => ret []
  | Some p =>
      present <- path_exists p ;;
      if present : bool
      then a <- absolute p ;; ret [file_line a]
      else ret []
  end.

(** The [f.write] calls of the whole loop. *)
Fixpoint concat_lines (segs : list TimelineSegment) : M (list string) :=
  match segs with
  | [] => ret []
  | segment :: rest =>
      written <- concat_line segment ;;
      more <- concat_lines rest ;;
      ret (written ++ more)%list
  end.

Definition concat_cmd (concat_list output_path : Path) : Cmd :=
  [Lit "ffmpeg"; Lit "-y";
   Lit "-f"; Lit "concat"; Lit "-safe"; Lit "0";
   Lit "-i"; Lit concat_list;
   Lit "-c:v"; Lit "libx264"; Lit "-preset"; Lit "fast"; Lit "-crf"; Lit "23";
   Lit "-movflags"; Lit "+faststart";
   Lit output_path].

Definition concatenate_clips (self : TimelineAssembler) (timeline : Timeline)
    (output_path : Path) : M bool :=
  let concat_list := temp_dir self // "concat_timeline.txt" in
  _ <- write_text concat_list [] ;;                  (* open(concat_list, "w") *)
  lines <- concat_lines (segments timeline) ;;
  _ <- write_text concat_list lines ;;
  result <- subprocess_run (concat_cmd concat_list output_path) ;;
  ret (returncode result =? 0)%Z.

(** ** _create_outro_sequence *)

Definition probe_dimensions_cmd (p : Path) : Cmd :=
  [Lit "ffprobe"; Lit "-v"; Lit "error";
   Lit "-select_streams"; Lit "v:0";
   Lit "-show_entries"; Lit "stream=width,height";
   Lit "-of"; Lit "json";
   Lit p].

Definition black_cmd (width height : Z) (d : Q) (black_path : Path) : Cmd :=
  [Lit "ffmpeg"; Lit "-y";
   Lit "-f"; Lit "lavfi";
   Lit "-i"; ColorSrc width height d;
   Lit "-c:v"; Lit "libx264"; Lit "-preset"; Lit "fast"; Lit "-crf"; Lit "23";
   Lit black_path].

Definition fade_cmd (video_path : Path) (fade_start : Q) (faded_path : Path)
    : Cmd :=
  [Lit "ffmpeg"; Lit "-y";
   Lit "-i"; Lit video_path;
   Lit "-vf"; FadeOut fade_start;
   Lit "-c:v"; Lit "libx264"; Lit "-preset"; Lit "fast"; Lit "-crf"; Lit "23";
   Lit "-an";
   Lit faded_path].

Definition outro_concat_cmd (concat_list : Path) (target_duration : Q)
    (output_path : Path) : Cmd :=
  [Lit "ffmpeg"; Lit "-y";
   Lit "-f"; Lit "concat"; Lit "-safe"; Lit "0";
   Lit "-i"; Lit concat_list;
   Lit "-c:v"; Lit "libx264"; Lit "-preset"; Lit "fast"; Lit "-crf"; Lit "23";
   Lit "-t"; Num target_duration;
   Lit output_path].

Definition _create_outro_sequence (self : TimelineAssembler)
    (video_path : Path) (current_duration target_duration : Q)
    (cta_text : string) : M (option string) :=
  let gap := target_duration - current_duration in
  let fade_start := py_max 0 (current_duration - 1.5) in
  (* Get video dimensions *)
  probe_result <- subprocess_run (probe_dimensions_cmd video_path) ;;
  let '(width, height) :=
    match stdout probe_result with
    | StreamsJson w h => (w, h)
    | _ => (1280, 720)%Z
    end in
  (* Step 1: black video for the gap; the result is not looked at *)
  let black_path := temp_dir self // "black_outro.mp4" in
  _ <- subprocess_run (black_cmd width height (gap + 0.5) black_path) ;;
  (* Step 2: fade-out on the main video *)
  let faded_path := temp_dir self // "video_faded.mp4" in
  fade_result <- subprocess_run (fade_cmd video_path fade_start faded_path) ;;
  if negb (returncode fade_result =? 0)%Z then ret None
  else
    (* Step 3: faded video + black *)
    let concat_list := temp_dir self // "outro_concat.txt" in
    _ <- write_text concat_list [] ;;              (* open(concat_list, "w") *)
    faded_abs <- absolute faded_path ;;
    black_abs <- absolute black_path ;;
    _ <- write_text concat_list [file_line faded_abs; file_line black_abs] ;;
    let output_path := temp_dir self // "video_with_outro.mp4" in
    result <- subprocess_run
                (outro_concat_cmd concat_list target_duration output_path) ;;
    if (returncode result =? 0)%Z
    then
      present <- path_exists output_path ;;
      if present : bool then ret (Some output_path) else ret None
    else ret None.

(** ** mix_final_audio *)

Definition mix_filter_complex (music_volume : Q) : list Chain :=
  [MkChain [InputStream 1 "a"] [Aresample 48000] "vo";
   MkChain [InputStream 2 "a"] [Aresample 48000; Volume music_volume] "music";
   MkChain [Label "vo"; Label "music"] [Amix 2 DurFirst None false] "audio"].

Definition mix_music_cmd (video_path voiceover_path music_path : string)
    (music_volume : Q) (output_path : Path) : Cmd :=
  [Lit "ffmpeg"; Lit "-y";
   Lit "-i"; Lit video_path;
   Lit "-i"; Lit voiceover_path;
   Lit "-i"; Lit music_path;
   Lit "-filter_complex"; FilterComplex (mix_filter_complex music_volume);
   Lit "-map"; Stream (InputStream 0 "v");
   Lit "-map"; Stream (Label "audio");
   Lit "-c:v"; Lit "copy";
   Lit "-c:a"; Lit "aac"; Lit "-b:a"; Lit "256k";
   Lit "-ar"; Lit "48000";
   Lit "-movflags"; Lit "+faststart";
   Lit output_path].

Definition mix_voice_cmd (video_path voiceover_path : string)
    (output_path : Path) : Cmd :=
  [Lit "ffmpeg"; Lit "-y";
   Lit "-i"; Lit video_path;
   Lit "-i"; Lit voiceover_path;
   Lit "-map"; Stream (InputStream 0 "v");
   Lit "-map"; Stream (InputStream 1 "a");
   Lit "-c:v"; Lit "copy";
   Lit "-c:a"; Lit "aac"; Lit "-b:a"; Lit "256k";
   Lit "-ar"; Lit "48000";
   Lit "-movflags"; Lit "+faststart";
   Lit output_path].

(** [if music_path and music_path.exists()]: the music file to mix in. *)
Definition usable_music (music_path : option string) : M (option string) :=
  match music_path with
  | None => ret None
  | Some m =>
      present <- path_exists m ;;
      if present : bool then ret (Some m) else ret None
  end.

Definition mix_final_audio (self : TimelineAssembler) (video_path : Path)
    (voiceover_path music_path : option string) (output_path : Path)
    (music_volume : Q) : M bool :=
  music <- usable_music music_path ;;
  let cmd :=
    match music with
    | Some m =>
        mix_music_cmd video_path (py_str voiceover_path) m music_volume
          output_path
    | None => mix_voice_cmd video_path (py_str voiceover_path) output_path
    end in
  result <- subprocess_run cmd ;;
  ret (returncode result =? 0)%Z.

(** ** assemble *)

(** The dict returned by [assemble]. *)
Inductive AssembleResult :=
| Failure (error : string)
    (* {"success": False, "error": error} *)
| Success (local_path : string) (vo_duration video_duration : Q).
    (* {"success": True, "local_path": .., "duration": ..,
        "video_duration": ..} *)

Definition assemble (self : TimelineAssembler) (timeline : Timeline)
    (output_path : Path) (music_volume : Q) : M AssembleResult :=
  (* Step 1: Prepare clips *)
  prepared <- prepare_timeline_clips self timeline 2.5 ;;
  let '(ok, timeline) := prepared in
  if negb ok then ret (Failure "Failed to prepare clips")
  else
    (* Step 2: Concatenate *)
    let concat_path := temp_dir self // "timeline_concat.mp4" in
    ok <- concatenate_clips self timeline concat_path ;;
    if negb ok then ret (Failure "Failed to concatenate clips")
    else
      (* Verify concat duration *)
      result <- subprocess_run (probe_duration_cmd concat_path) ;;
      let video_duration :=
        match stdout result with
        | FormatJson d => d
        | _ => 0
        end in
      (* Step 2.5: If video is shorter than voiceover, create proper outro *)
      chosen <-
        match (video_duration ?= voiceover_duration timeline)%Q with
        | Lt =>
            outro <- _create_outro_sequence self concat_path video_duration
                       (voiceover_duration timeline + 0.5)
                       (default "" (voiceover_text <$> last (segments timeline))) ;;
            match outro with
            | Some final_video_path =>
                ret (final_video_path, voiceover_duration timeline + 0.5)
            | None => ret (concat_path, video_duration)      (* Fallback *)
            end
        | _ => ret (concat_path, video_duration)
        end ;;
      let '(final_video_path, video_duration) := chosen in
      (* Step 3: Mix audio *)
      ok <- mix_final_audio self final_video_path (voiceover_path timeline)
              (music_path timeline) output_path music_volume ;;
      if negb ok then ret (Failure "Failed to mix audio")
      else ret (Success output_path (voiceover_duration timeline)
                  video_duration).

End Assembler.

(** ** audio_mixer.py: [AudioMixer.mix_voice_and_music] and its commands *)

Module AudioMixer.

Record AudioMixConfig := MkAudioMixConfig {
  target_sample_rate : Z;
  target_channels : Z;
  voice_target_lufs : Q;
  music_target_lufs : Q;
  voice_volume : Q;
  music_volume : Q;
  output_lufs : Q;
  output_true_peak : Q
}.

(** [AudioMixConfig()] with the defaults of the dataclass. *)
Definition default_config : AudioMixConfig :=
  MkAudioMixConfig 48000 2 (-16.0) (-26.0) 1.0 0.15 (-16.0) (-1.5).

(** The first command: the voice resampled into [voice_norm].  [channels] is
    [voice_info['channels']]. *)
Definition voice_normalize_cmd (cfg : AudioMixConfig) (voice_path : Path)
    (channels : Z) (voice_norm : Path) : Cmd :=
  let voice_filter :=
    ([Aresample (target_sample_rate cfg)]
       ++ (if (channels =? 1)%Z then [PanStereo] else []))%list in
  [Lit "ffmpeg"; Lit "-y"; Lit "-i"; Lit voice_path;
   Lit "-af"; AudioFilters voice_filter;
   Lit "-ar"; Int (target_sample_rate cfg);
   Lit "-ac"; Lit "2";
   Lit "-c:a"; Lit "pcm_s16le";
   Lit voice_norm].

(** The second command: the music resampled into [music_norm]. *)
Definition music_normalize_cmd (cfg : AudioMixConfig) (music_path : Path)
    (music_norm : Path) : Cmd :=
  [Lit "ffmpeg"; Lit "-y"; Lit "-i"; Lit music_path;
   Lit "-af"; AudioFilters [Aresample (target_sample_rate cfg)];
   Lit "-ar"; Int (target_sample_rate cfg);
   Lit "-ac"; Lit "2";
   Lit "-c:a"; Lit "pcm_s16le";
   Lit music_norm].

Definition filter_complex (cfg : AudioMixConfig) : list Chain :=
  [MkChain [InputStream 1 "a"] [Volume (voice_volume cfg)] "v";
   MkChain [InputStream 2 "a"] [Volume (music_volume cfg)] "m";
   MkChain [Label "v"; Label "m"]
     [Amix 2 DurFirst (Some 0%Z) false; Volume 1.5] "out"].

(** The third command: the mix itself, on the two normalized files. *)
Definition mix_cmd (cfg : AudioMixConfig) (video_path voice_norm music_norm
    output_path : Path) : Cmd :=
  [Lit "ffmpeg"; Lit "-y";
   Lit "-i"; Lit video_path;
   Lit "-i"; Lit voice_norm;
   Lit "-i"; Lit music_norm;
   Lit "-filter_complex"; FilterComplex (filter_complex cfg);
   Lit "-map"; Stream (InputStream 0 "v");
   Lit "-map"; Stream (Label "out");
   Lit "-c:v"; Lit "copy";
   Lit "-c:a"; Lit "aac";
   Lit "-b:a"; Lit "256k";
   Lit "-ar"; Int (target_sample_rate cfg);
   Lit "-movflags"; Lit "+faststart";
   Lit output_path].

(** The probe of [get_audio_info]. *)
Definition audio_info_cmd (audio_path : Path) : Cmd :=
  [Lit "ffprobe"; Lit "-v"; Lit "quiet";
   Lit "-print_format"; Lit "json";
   Lit "-show_streams"; Lit "-show_format";
   Lit audio_path].

(** The two measurements of [validate_audio]. *)
Definition peak_level_cmd (audio_path : Path) : Cmd :=
  [Lit "ffmpeg"; Lit "-i"; Lit audio_path;
   Lit "-af";
   Lit "astats=metadata=1:reset=1,ametadata=print:key=lavfi.astats.Overall.Peak_level";
   Lit "-f"; Lit "null"; Lit "-"].

Definition loudness_cmd (audio_path : Path) : Cmd :=
  [Lit "ffmpeg"; Lit "-i"; Lit audio_path;
   Lit "-af"; Lit "loudnorm=print_format=json";
   Lit "-f"; Lit "null"; Lit "-"].

(** [p.unlink(missing_ok=True)] *)
Definition unlink (p : Path) : M unit :=
  λ w, (tt, MkWorld (delete p (fs w)) (cwd w) (history w)).

(** The dict returned by [mix_voice_and_music].  The error text and the
    figures of the validation come from the standard error of the commands
    and are only reported; they are left out. *)
Inductive MixResult :=
| MixFailure
    (* {"success": False, "error": result.stderr} *)
| MixSuccess (local_path : string).
    (* {"success": True, "local_path": .., "validation": ..} *)

Section Mixer.

(** The external programs. *)
Context (tool : list Arg → World → Completed * gmap string File).

(** pathlib's [.parent], left open. *)
Context (parent : string → string).

(** [get_audio_info], as far as [mix_voice_and_music] reads its result: the
    entry [channels], which is 2 when the probe names none or its output
    does not parse. *)
Definition get_audio_info (audio_path : Path) : M Z :=
  result <- subprocess_run tool (audio_info_cmd audio_path) ;;
  ret match stdout result with
      | AudioJson channels => channels
      | _ => 2%Z
      end.

(** [validate_audio]: the probe and the two measurements.  What it reads
    from them is only reported. *)
Definition validate_audio (audio_path : Path) : M unit :=
  _ <- get_audio_info audio_path ;;
  _ <- subprocess_run tool (peak_level_cmd audio_path) ;;
  _ <- subprocess_run tool (loudness_cmd audio_path) ;;
  ret tt.

Definition mix_voice_and_music (cfg : AudioMixConfig)
    (video_path voice_path music_path output_path : Path) : M MixResult :=
  let temp_dir := parent output_path in
  (* Normalize voice *)
  let voice_norm := temp_dir // "voice_normalized.wav" in
  voice_channels <- get_audio_info voice_path ;;
  _ <- subprocess_run tool
         (voice_normalize_cmd cfg voice_path voice_channels voice_norm) ;;
  (* Normalize music *)
  let music_norm := temp_dir // "music_normalized.wav" in
  _ <- get_audio_info music_path ;;
  _ <- subprocess_run tool (music_normalize_cmd cfg music_path music_norm) ;;
  (* Simple mix with volume levels *)
  result <- subprocess_run tool
              (mix_cmd cfg video_path voice_norm music_norm output_path) ;;
  (* Clean up temp files *)
  _ <- unlink voice_norm ;;
  _ <- unlink music_norm ;;
  if negb (returncode result =? 0)%Z then ret MixFailure
  else
    (* Validate output *)
    _ <- validate_audio output_path ;;
    ret (MixSuccess output_path).

End Mixer.

End AudioMixer.

(** ** What the muxer writes: duration of an ffmpeg output

    The mix commands are given to ffmpeg, which is not part of the
    repository.  To speak about the length of the file it writes, this
    module follows ffmpeg's documented rules:
    - a stream taken from an input file lasts as long as that file;
    - [aresample], [pan] and [volume] keep the length of their input;
    - [amix] lasts as long as its longest, shortest or first input,
      according to its [duration] option;
    - the output lasts as long as the longest stream mapped into it, or the
      shortest when [-shortest] is given, and never longer than [-t]. *)

Module Ffmpeg.

Definition longest (ds : list Q) : option Q :=
  match ds with
  | d :: ds' => Some (fold_left Qmax ds' d)
  | [] => None
  end.

Definition shortest (ds : list Q) : option Q :=
  match ds with
  | d :: ds' => Some (fold_left Qmin ds' d)
  | [] => None
  end.

(** Length of the stream a filter produces from streams of lengths [ins]. *)
Definition filter_duration (f : Filter) (ins : list Q) : option Q :=
  match f with
  | Amix _ DurLongest _ _ => longest ins
  | Amix _ DurShortest _ _ => shortest ins
  | Amix _ DurFirst _ _ => head ins
  | Aresample _ | PanStereo | Volume _ => head ins
  end.

(** A chain feeds its sources to the first filter and then each result to
    the next filter. *)
Fixpoint chain_duration (fl : list Filter) (ins : list Q) : option Q :=
  match fl with
  | [] => head ins
  | f :: fl' =>
      match filter_duration f ins with
      | Some d => chain_duration fl' [d]
      | None => None
      end
  end.

Section Duration.

(** Length of each input file, by path. *)
Context (len : string → Q).

(** Length of the stream behind a pad; [fuel] bounds the depth of labels
    defined from labels. *)
Fixpoint pad_duration (fuel : nat) (inputs : list Arg) (graph : list Chain)
    (p : Pad) : option Q :=
  match p with
  | InputStream n _ =>
      match inputs !! n with
      | Some (Lit path) => Some (len path)
      | _ => None
      end
  | Label l =>
      match fuel with
      | O => None
      | S fuel' =>
          match find (λ c, String.eqb (sink c) l) graph with
          | Some c =>
              match mapM (pad_duration fuel' inputs graph) (srcs c) with
              | Some ins => chain_duration (filters c) ins
              | None => None
              end
          | None => None
          end
      end
  end.

Definition mux_duration (cmd : Cmd) : option Q :=
  let inputs := option_values "-i" cmd in
  let graph :=
    match flag_value "-filter_complex" cmd with
    | Some (FilterComplex g) => g
    | _ => []
    end in
  let mapped :=
    omap (λ a, match a with Stream p => Some p | _ => None end)
      (option_values "-map" cmd) in
  match mapM (pad_duration (S (length graph)) inputs graph) mapped with
  | Some ds =>
      match (if has_flag "-shortest" cmd then shortest ds else longest ds) with
      | Some d =>
          match flag_value "-t" cmd with
          | Some (Num t) => Some (Qmin t d)
          | _ => Some d
          end
      | None => None
      end
  | None => None
  end.

End Duration.

End Ffmpeg.

(** ** Observations on a run *)

(** The filters that follow [amix] in the chain that mixes. *)
Fixpoint after_amix (fl : list Filter) : option (list Filter) :=
  match fl with
  | [] => None
  | Amix _ _ _ _ :: rest => Some rest
  | _ :: rest => after_amix rest
  end.

(** The chain of a filter graph that contains [amix]. *)
Definition mixing_chain (g : list Chain) : option Chain :=
  find (λ c, bool_decide (is_Some (after_amix (filters c)))) g.

(** The filters applied to the mixed signal, after [amix]. *)
Definition post_mix_filters (g : list Chain) : option (list Filter) :=
  mixing_chain g ≫= λ c, after_amix (filters c).

(** The [amix] filter itself, with its options. *)
Definition amix_filter (g : list Chain) : option Filter :=
  mixing_chain g ≫= λ c,
    find (λ f, match f with Amix _ _ _ _ => true | _ => false end)
      (filters c).

(** For each input of [amix], in order: the stream it comes from and the
    filters it went through inside the graph. *)
Definition mix_inputs (g : list Chain) : list (list Pad * list Filter) :=
  match mixing_chain g with
  | Some c =>
      (λ p, match p with
            | Label l =>
                match find (λ c', String.eqb (sink c') l) g with
                | Some c' => (srcs c', filters c')
                | None => ([p], [])
                end
            | InputStream _ _ => ([p], [])
            end) <$> srcs c
  | None => []
  end.

(** The durations of the black fills requested in a list of commands. *)
Definition black_fill_durations (h : list (list Arg)) : list Q :=
  omap (λ a, match a with ColorSrc _ _ d => Some d | _ => None end)
    (concat h).

(** The path [assemble] concatenates into. *)
Definition concat_path (self : TimelineAssembler) : Path :=
  temp_dir self // "timeline_concat.mp4".

Section Stages.

Context (tool : list Arg → World → Completed * gmap string File).

(** [assemble] up to its duration check: steps 1 and 2 and the probe of the
    concatenated file.  [None] when concatenation failed; otherwise the
    [video_duration] the check compares. *)
Definition duration_check (self : TimelineAssembler) (timeline : Timeline)
    : M (option Q) :=
  prepared <- prepare_timeline_clips tool self timeline 2.5 ;;
  ok <- concatenate_clips tool self (snd prepared) (concat_path self) ;;
  if negb ok then ret None
  else
    result <- subprocess_run tool (probe_duration_cmd (concat_path self)) ;;
    ret (Some match stdout result with
              | FormatJson d => d
              | _ => 0
              end).

(** The rest of [assemble] once the video to mix is chosen: step 3 and the
    returned dict. *)
Definition mix_and_report (self : TimelineAssembler) (timeline : Timeline)
    (output_path : Path) (music_volume : Q) (final_video_path : Path)
    (video_duration : Q) : M AssembleResult :=
  ok <- mix_final_audio tool self final_video_path (voiceover_path timeline)
          (music_path timeline) output_path music_volume ;;
  if negb ok then ret (Failure "Failed to mix audio")
  else ret (Success output_path (voiceover_duration timeline) video_duration).

(** The line the concatenator writes for a segment in world [w], if any. *)
Definition clip_listed (w : World) (segment : TimelineSegment)
    : option string :=
  match trimmed_video_path segment with
  | Some p =>
      if bool_decide (is_Some (fs w !! p))
      then Some (file_line (fst (absolute p w)))
      else None
  | None => None
  end.

(** The world right after [open(concat_list, "w")]. *)
Definition list_opened (self : TimelineAssembler) (w : World) : World :=
  snd (write_text (temp_dir self // "concat_timeline.txt") [] w).

(** The path a segment is trimmed into. *)
Definition trimmed_path (self : TimelineAssembler) (segment : TimelineSegment)
    : Path :=
  temp_dir self // ("trimmed_" +:+ fmt_03d (index segment) +:+ ".mp4").

(** What the concatenator writes into its list file when called in [w]. *)
Definition concat_list_written (self : TimelineAssembler)
    (timeline : Timeline) (w : World) : list string :=
  fst (concat_lines (segments timeline) (list_opened self w)).

(** The text handed to the outro as [cta_text]. *)
Definition last_text (timeline : Timeline) : string :=
  default "" (voiceover_text <$> last (segments timeline)).

(** The timeline as step 1 leaves it. *)
Definition prepared (self : TimelineAssembler) (timeline : Timeline)
    (w : World) : Timeline :=
  snd (fst (prepare_timeline_clips tool self timeline 2.5 w)).

(** The command [mix_final_audio] builds when called in [w]. *)
Definition mix_command (video_path : Path)
    (voiceover_path music_path : option string) (output_path : Path)
    (music_volume : Q) (w : World) : Cmd :=
  match fst (usable_music music_path w) with
  | Some m =>
      mix_music_cmd video_path (py_str voiceover_path) m music_volume
        output_path
  | None => mix_voice_cmd video_path (py_str voiceover_path) output_path
  end.

End Stages.

(** ** Concrete tools and worlds *)

Module Scenario.

(** The file operand of a command. *)
Definition operand (cmd : Cmd) : option string :=
  match last cmd with
  | Some (Lit p) => Some p
  | _ => None
  end.

(** A tool described by what ffprobe prints for each file and by which
    ffmpeg commands fail: a failing command exits with 1 and writes nothing,
    any other exits with 0 and leaves its output file behind. *)
Definition studio (probe : string → Stdout) (fails : Cmd → bool)
    (cmd : Cmd) (w : World) : Completed * gmap string File :=
  match cmd with
  | Lit "ffprobe" :: _ =>
      (MkCompleted 0 (default NoJson (probe <$> operand cmd)), fs w)
  | _ =>
      if fails cmd then (MkCompleted 1 NoJson, fs w)
      else (MkCompleted 0 NoJson,
            match operand cmd with
            | Some p => <[p := Media]> (fs w)
            | None => fs w
            end)
  end.

Definition self : TimelineAssembler := MkTimelineAssembler "/tmp/t" "/out".

(** Two clips, a voiceover and a music track on disk. *)
Definition disk : World :=
  MkWorld (<["/c/a.mp4" := Media]> (<["/c/b.mp4" := Media]>
            (<["/vo.mp3" := Media]> (<["/music.mp3" := Media]> ∅))))
    "/work" [].

(** The same disk with a black clip left in the temporary directory by an
    earlier run. *)
Definition stale_disk : World :=
  MkWorld (<["/tmp/t/black_outro.mp4" := Media]> (fs disk)) "/work" [].

(** Lengths of the files a mix may be given: a 10 s video, a 12 s
    voiceover, 30 s of music. *)
Definition len (p : string) : Q :=
  if String.eqb p "/vo.mp3" then 12
  else if String.eqb p "/music.mp3" then 30
  else 10.

(** The clips last 5 s each, their concatenation 11 s. *)
Definition probe (p : string) : Stdout :=
  if String.eqb p "/tmp/t/timeline_concat.mp4" then FormatJson 11
  else FormatJson 5.

(** Every audio file is mono. *)
Definition probe_mono (p : string) : Stdout := AudioJson 1.

(** The same clips, but a concatenation of 20 s. *)
Definition probe_long (p : string) : Stdout :=
  if String.eqb p "/tmp/t/timeline_concat.mp4" then FormatJson 20
  else FormatJson 5.

Definition narration : list VoiceoverSegment :=
  [MkVoiceoverSegment (Some "one") (Some 0) (Some 6);
   MkVoiceoverSegment (Some "two") (Some 6) (Some 12)].

Definition clips : list string := ["/c/a.mp4"; "/c/b.mp4"].

(** The timeline [build_timeline] returns for the narration, 12 s long. *)
Definition timeline : Timeline :=
  MkTimeline (zip_segments 0 narration clips) (Some "/vo.mp3") 12 None.

Definition never (cmd : Cmd) : bool := false.

Definition is_black_fill (cmd : Cmd) : bool :=
  negb (bool_decide (black_fill_durations [cmd] = [])).

Definition is_trim (cmd : Cmd) : bool :=
  has_flag "-an" cmd && bool_decide (flag_value "-vf" cmd = None).

Definition is_fade (cmd : Cmd) : bool :=
  bool_decide (is_Some (flag_value "-vf" cmd)).

Definition is_splice (cmd : Cmd) : bool :=
  match flag_value "-f" cmd with
  | Some (Lit f) => String.eqb f "concat"
  | _ => false
  end
  && bool_decide (is_Some (flag_value "-t" cmd)).

Definition is_concat (cmd : Cmd) : bool :=
  match flag_value "-f" cmd with
  | Some (Lit f) => String.eqb f "concat"
  | _ => false
  end
  && bool_decide (flag_value "-t" cmd = None).

(** Lengths of the two clips of an outro over the 11 s concatenation: the
    fade keeps the 11 s, the black fill lasts as requested. *)
Definition outro_len (p : string) : Q :=
  if String.eqb p "/tmp/t/video_faded.mp4" then 11
  else if String.eqb p "/tmp/t/black_outro.mp4" then 12 + 0.5 - 11 + 0.5
  else 0.

(** The same fade, next to a black clip of a quarter of a second that an
    earlier run left behind. *)
Definition stale_len (p : string) : Q :=
  if String.eqb p "/tmp/t/video_faded.mp4" then 11
  else if String.eqb p "/tmp/t/black_outro.mp4" then 0.25
  else 0.

(** The clips can be probed, their concatenation cannot. *)
Definition probe_blind (p : string) : Stdout :=
  if String.eqb p "/tmp/t/timeline_concat.mp4" then NoJson
  else FormatJson 5.

(** A timeline whose clips are not on disk. *)
Definition ghost_timeline : Timeline :=
  MkTimeline (zip_segments 0 narration ["/c/x.mp4"; "/c/y.mp4"])
    (Some "/vo.mp3") 12 None.

End Scenario.

(** ** The rest of the module *)

(** The [total_duration] property of [Timeline]. *)
Definition total_duration (t : Timeline) : Q := voiceover_duration t.

Section Callers.

Context (tool : list Arg → World → Completed * gmap string File).

(** pathlib's [.parent], left open. *)
Context (parent : string → string).

(** [assemble_with_timing]: [temp_dir or output_path.parent / "temp"], a
    fresh assembler, [build_timeline], then [assemble] with its default
    music volume. *)
Definition assemble_with_timing (voiceover_segments : list VoiceoverSegment)
    (video_clips : list string) (voiceover_path : string)
    (voiceover_duration : Q) (output_path : Path)
    (music_path temp_dir : option string) : M (Outcome AssembleResult) :=
  let temp :=
    match temp_dir with
    | Some t => t
    | None => parent output_path // "temp"
    end in
  let output_dir := parent output_path in
  let assembler := MkTimelineAssembler temp output_dir in
  match build_timeline voiceover_segments video_clips voiceover_path
          voiceover_duration music_path with
  | Returned timeline =>
      result <- assemble tool assembler timeline output_path 0.15 ;;
      ret (Returned result)
  | Raised exn => ret (Raised exn)
  end.

(** [_create_outro_sequence] up to the check of the fade: the probe of the
    dimensions, the black fill and the fade; the result is the completed
    fade. *)
Definition outro_faded (self : TimelineAssembler) (video_path : Path)
    (current_duration target_duration : Q) : M Completed :=
  probe_result <- subprocess_run tool (probe_dimensions_cmd video_path) ;;
  let dims :=
    match stdout probe_result with
    | StreamsJson w h => (w, h)
    | _ => (1280, 720)%Z
    end in
  _ <- subprocess_run tool
         (black_cmd (fst dims) (snd dims)
            (target_duration - current_duration + 0.5)
            (temp_dir self // "black_outro.mp4")) ;;
  subprocess_run tool
    (fade_cmd video_path (py_max 0 (current_duration - 1.5))
       (temp_dir self // "video_faded.mp4")).

(** The world in which the splice runs, from the world [w] the fade left:
    the list file names the faded video and the black fill. *)
Definition outro_listed (self : TimelineAssembler) (w : World) : World :=
  MkWorld
    (<[temp_dir self // "outro_concat.txt" :=
         Text [file_line
                 (fst (absolute (temp_dir self // "video_faded.mp4") w));
               file_line
                 (fst (absolute (temp_dir self // "black_outro.mp4") w))]]>
       (<[temp_dir self // "outro_concat.txt" := Text []]> (fs w)))
    (cwd w) (history w).

(** The splice command of a synthesis towards [target_duration]. *)
Definition splice_cmd (self : TimelineAssembler) (target_duration : Q) : Cmd :=
  outro_concat_cmd (temp_dir self // "outro_concat.txt") target_duration
    (temp_dir self // "video_with_outro.mp4").

End Callers.

(** One more rule of the external muxer, for the concat demuxer: it plays
    the listed files one after the other, so what a command with
    [-f concat] writes lasts as long as the listed files together, and not
    longer than [-t]. *)
Definition concat_duration (len : string → Q) (listed : list string)
    (cmd : Cmd) : Q :=
  let total := foldr (λ p rest, len p + rest) 0 listed in
  match flag_value "-t" cmd with
  | Some (Num t) => Qmin t total
  | _ => total
  end.

(** Reading a formatted index back: the value of a string of decimal
    digits, and of such a string behind an optional minus sign. *)
Definition digits_value (s : string) : option N :=
  N.of_uint <$> NilEmpty.uint_of_string s.

Definition decode_index (s : string) : option Z :=
  match s with
  | String c s' =>
      if Ascii.eqb c "-" then (λ n, (- Z.of_N n)%Z) <$> digits_value s'
      else Z.of_N <$> digits_value s
  | EmptyString => None
  end.

(** A command that preparation may run for [segment]: the probe of its
    source, or a trim of its source into its trimmed path. *)
Definition prepares (self : TimelineAssembler) (segment : TimelineSegment)
    (cmd : Cmd) : Prop :=
  ∃ source, video_path segment = Some source
    ∧ (cmd = probe_duration_cmd source
       ∨ ∃ d, cmd = trim_cmd source (trimmed_path self segment) d).

(** What preparation may turn a segment into: itself, itself with the
    trimmed file, or itself with its own source as trimmed clip. *)
Definition prepared_from (self : TimelineAssembler)
    (segment segment' : TimelineSegment) : Prop :=
  segment' = segment
  ∨ segment'
    = set_trimmed_video_path (Some (trimmed_path self segment)) segment
  ∨ (is_Some (video_path segment)
     ∧ segment' = set_trimmed_video_path (video_path segment) segment).

(** * Properties *)

(** ** Python's [max] and [min] are the usual ones *)

Lemma py_max_Qmax (a b : Q) : py_max a b = Qmax a b.
Proof.
  unfold py_max, Qmax, GenericMinMax.gmax.
  rewrite <- (Qcompare_antisym a b).
  destruct (a ?= b)%Q; reflexivity.
Qed.

Lemma py_min_Qmin (a b : Q) : py_min a b = Qmin a b.
Proof.
  unfold py_min, Qmin, GenericMinMax.gmin.
  rewrite <- (Qcompare_antisym a b).
  destruct (a ?= b)%Q; reflexivity.
Qed.

Lemma Qmin_takes_right (a b : Q) : b < a → Qmin a b = b.
Proof.
  intros H. unfold Qmin, GenericMinMax.gmin.
  apply Qgt_alt in H. rewrite H. reflexivity.
Qed.

(** ** The monad, step by step *)

Lemma bind_run {A B : Type} (m : M A) (f : A → M B) (w : World) :
  bind m f w = f (fst (m w)) (snd (m w)).
Proof. unfold bind. destruct (m w); reflexivity. Qed.

Section Properties.

Context (tool : list Arg → World → Completed * gmap string File).

Lemma subprocess_run_history (cmd : Cmd) (w : World) :
  history (snd (subprocess_run tool cmd w)) = (history w ++ [cmd])%list.
Proof. unfold subprocess_run. destruct (tool cmd w); reflexivity. Qed.

Lemma subprocess_run_result (cmd : Cmd) (w : World) :
  fst (subprocess_run tool cmd w) = fst (tool cmd w).
Proof. unfold subprocess_run. destruct (tool cmd w); reflexivity. Qed.

(** ** Clip trimmer *)

(** The two commands of a trim, whatever the probe answers. *)
Lemma trim_clip_to_duration_history (input_path output_path : Path)
    (target_duration min_duration : Q) (w : World) :
  let source_duration :=
    match stdout (fst (tool (probe_duration_cmd input_path) w)) with
    | FormatJson d => d
    | _ => 4.0
    end in
  history (snd (trim_clip_to_duration tool input_path output_path
                  target_duration min_duration w))
  = (history w ++
      [probe_duration_cmd input_path;
       trim_cmd input_path output_path
         (Qmin (Qmax target_duration min_duration) source_duration)])%list.
Proof.
  unfold trim_clip_to_duration.
  rewrite !bind_run. cbn [ret snd].
  rewrite !subprocess_run_history, subprocess_run_result.
  rewrite py_max_Qmax, py_min_Qmin, <- app_assoc. reflexivity.
Qed.

(** C1.  When the probe reports [source_duration], a trim runs the probe and
    then one transcode whose [-t] is exactly
    [min (max target_duration min_duration) source_duration]; that duration
    never exceeds [source_duration], and it is [source_duration] itself when
    the source is shorter than the effective target. *)
Theorem trim_requests_min_max (input_path output_path : Path)
    (target_duration min_duration source_duration : Q) (w : World)
    (Hprobe : stdout (fst (tool (probe_duration_cmd input_path) w))
              = FormatJson source_duration) :
  let final_duration :=
    Qmin (Qmax target_duration min_duration) source_duration in
  history (snd (trim_clip_to_duration tool input_path output_path
                  target_duration min_duration w))
  = (history w ++
      [probe_duration_cmd input_path;
       trim_cmd input_path output_path final_duration])%list
  ∧ flag_value "-t" (trim_cmd input_path output_path final_duration)
    = Some (Num final_duration)
  ∧ final_duration <= source_duration
  ∧ (source_duration < Qmax target_duration min_duration →
     final_duration = source_duration).
Proof.
  intros final_duration. split; [|split; [|split]].
  - pose proof (trim_clip_to_duration_history input_path output_path
                  target_duration min_duration w) as H.
    cbv zeta in H. rewrite Hprobe in H. exact H.
  - reflexivity.
  - apply Q.le_min_r.
  - intros Hlt. apply Qmin_takes_right, Hlt.
Qed.

(** ** Preparing the clips *)

Lemma prepare_timeline_clips_run (self : TimelineAssembler)
    (timeline : Timeline) (min_duration : Q) (w : World) :
  prepare_timeline_clips tool self timeline min_duration w
  = ((true,
      set_segments
        (fst (prepare_segments tool self min_duration (segments timeline) w))
        timeline),
     snd (prepare_segments tool self min_duration (segments timeline) w)).
Proof.
  unfold prepare_timeline_clips. rewrite bind_run. reflexivity.
Qed.

(** ** The orchestrator, cut at its duration check *)

Lemma assemble_from_duration_check (self : TimelineAssembler)
    (timeline : Timeline) (output_path : Path) (music_volume : Q)
    (w : World) :
  assemble tool self timeline output_path music_volume w
  = match duration_check tool self timeline w with
    | (None, w2) => (Failure "Failed to concatenate clips", w2)
    | (Some video_duration, w3) =>
        match (video_duration ?= voiceover_duration timeline)%Q with
        | Lt =>
            match _create_outro_sequence tool self (concat_path self)
                    video_duration (voiceover_duration timeline + 0.5)
                    (last_text (prepared tool self timeline w)) w3 with
            | (Some final_video_path, w4) =>
                mix_and_report tool self timeline output_path music_volume
                  final_video_path (voiceover_duration timeline + 0.5) w4
            | (None, w4) =>
                mix_and_report tool self timeline output_path music_volume
                  (concat_path self) video_duration w4
            end
        | _ =>
            mix_and_report tool self timeline output_path music_volume
              (concat_path self) video_duration w3
        end
    end.
Proof.
  unfold assemble, duration_check, prepared.
  rewrite !bind_run, prepare_timeline_clips_run. cbn [fst snd negb].
  fold (concat_path self). rewrite !bind_run.
  destruct (concatenate_clips tool self _ (concat_path self) _) as [[] w2];
    cbn [fst snd negb]; [|reflexivity].
  rewrite !bind_run. cbn [ret fst snd].
  set (vd := match stdout _ with FormatJson d => d | _ => 0 end).
  set (w3 := snd (subprocess_run tool _ w2)).
  cbn [voiceover_duration set_segments].
  destruct (vd ?= voiceover_duration timeline)%Q; cbn [ret fst snd];
    try reflexivity.
  rewrite bind_run. unfold last_text.
  destruct (_create_outro_sequence _ _ _ _ _ _ w3) as [[p|] w4];
    reflexivity.
Qed.

(** C10.  Preparing the clips answers [True] for every timeline and every
    behaviour of the external tools, so [assemble] never reports
    "Failed to prepare clips". *)
Theorem prepare_timeline_clips_always_true (self : TimelineAssembler)
    (timeline : Timeline) (min_duration : Q) (output_path : Path)
    (music_volume : Q) (w : World) :
  fst (fst (prepare_timeline_clips tool self timeline min_duration w)) = true
  ∧ fst (assemble tool self timeline output_path music_volume w)
    ≠ Failure "Failed to prepare clips".
Proof.
  split.
  - rewrite prepare_timeline_clips_run. reflexivity.
  - rewrite assemble_from_duration_check.
    destruct (duration_check tool self timeline w) as [[vd|] w3];
      [|discriminate].
    unfold mix_and_report.
    destruct (vd ?= voiceover_duration timeline)%Q;
      try destruct (_create_outro_sequence _ _ _ _ _ _ w3) as [[p|] w4];
      rewrite bind_run; cbn [fst];
      destruct (fst (mix_final_audio _ _ _ _ _ _ _ _)); discriminate.
Qed.

(** ** Audio mix *)

Lemma usable_music_world (music_path : option string) (w : World) :
  snd (usable_music music_path w) = w.
Proof.
  destruct music_path as [m|]; [|reflexivity].
  unfold usable_music. rewrite bind_run. cbn [path_exists fst snd].
  destruct (bool_decide _); reflexivity.
Qed.

(** A mix runs exactly one command, the one [mix_command] describes. *)
Lemma mix_final_audio_run (self : TimelineAssembler) (video_path : Path)
    (voiceover_path music_path : option string) (output_path : Path)
    (music_volume : Q) (w : World) :
  let cmd := mix_command video_path voiceover_path music_path output_path
               music_volume w in
  mix_final_audio tool self video_path voiceover_path music_path output_path
    music_volume w
  = ((returncode (fst (subprocess_run tool cmd w)) =? 0)%Z,
     snd (subprocess_run tool cmd w)).
Proof.
  unfold mix_final_audio, mix_command.
  rewrite !bind_run, usable_music_world. reflexivity.
Qed.

Lemma mix_and_report_history (self : TimelineAssembler) (timeline : Timeline)
    (output_path : Path) (music_volume : Q) (final_video_path : Path)
    (video_duration : Q) (w : World) :
  history (snd (mix_and_report tool self timeline output_path music_volume
                  final_video_path video_duration w))
  = (history w ++
      [mix_command final_video_path (voiceover_path timeline)
         (music_path timeline) output_path music_volume w])%list.
Proof.
  unfold mix_and_report. rewrite bind_run, mix_final_audio_run.
  cbn [fst snd].
  destruct (negb _); cbn [ret snd]; apply subprocess_run_history.
Qed.

(** The first input of either mix command is the video it was given. *)
Lemma mix_command_video (video_path : Path)
    (voiceover_path music_path : option string) (output_path : Path)
    (music_volume : Q) (w : World) :
  option_values "-i"
    (mix_command video_path voiceover_path music_path output_path
       music_volume w) !! 0%nat
  = Some (Lit video_path).
Proof.
  unfold mix_command. destruct (fst (usable_music music_path w)); reflexivity.
Qed.

(** ** Outro: no-op when the video is long enough *)

(** C4.  When the duration check finds the concatenated video at least as
    long as the voiceover, [assemble] goes straight on to the mix: the one
    command that runs after the check is the mix command whose video input
    is the concatenated file, and no command of the outro is run. *)
Theorem outro_skipped_when_video_covers_voiceover (self : TimelineAssembler)
    (timeline : Timeline) (output_path : Path) (music_volume : Q)
    (w w3 : World) (video_duration : Q)
    (Hcheck : duration_check tool self timeline w = (Some video_duration, w3))
    (Hlong : voiceover_duration timeline <= video_duration) :
  let mix := mix_command (concat_path self) (voiceover_path timeline)
               (music_path timeline) output_path music_volume w3 in
  assemble tool self timeline output_path music_volume w
  = mix_and_report tool self timeline output_path music_volume
      (concat_path self) video_duration w3
  ∧ history (snd (assemble tool self timeline output_path music_volume w))
    = (history w3 ++ [mix])%list
  ∧ option_values "-i" mix !! 0%nat = Some (Lit (concat_path self))
  ∧ black_fill_durations [mix] = []
  ∧ flag_value "-vf" mix = None.
Proof.
  intros mix.
  assert (Heq : assemble tool self timeline output_path music_volume w
                = mix_and_report tool self timeline output_path music_volume
                    (concat_path self) video_duration w3).
  { rewrite assemble_from_duration_check, Hcheck.
    destruct (video_duration ?= voiceover_duration timeline)%Q eqn:Hcmp;
      try reflexivity.
    apply Qlt_alt in Hcmp. exfalso. revert Hcmp. apply Qle_not_lt, Hlong. }
  split; [exact Heq|]. split.
  - rewrite Heq. apply mix_and_report_history.
  - split; [apply mix_command_video|].
    unfold mix, mix_command.
    destruct (fst (usable_music (music_path timeline) w3)); split; reflexivity.
Qed.

(** ** Outro synthesis *)

(** A synthesis that returns a path ran its four commands, in order, and
    returns the spliced file, which exists. *)
Lemma create_outro_sequence_success (self : TimelineAssembler)
    (video_path : Path) (current_duration target_duration : Q)
    (cta_text : string) (w w4 : World) (p : string)
    (Hsome : _create_outro_sequence tool self video_path current_duration
               target_duration cta_text w = (Some p, w4)) :
  p = temp_dir self // "video_with_outro.mp4"
  ∧ is_Some (fs w4 !! p)
  ∧ ∃ width height : Z,
      history w4
      = (history w ++
          [probe_dimensions_cmd video_path;
           black_cmd width height (target_duration - current_duration + 0.5)
             (temp_dir self // "black_outro.mp4");
           fade_cmd video_path (Qmax 0 (current_duration - 1.5))
             (temp_dir self // "video_faded.mp4");
           outro_concat_cmd (temp_dir self // "outro_concat.txt")
             target_duration p])%list.
Proof.
  unfold _create_outro_sequence in Hsome.
  rewrite bind_run in Hsome.
  pose proof (subprocess_run_history (probe_dimensions_cmd video_path) w)
    as H1.
  set (r1 := fst (subprocess_run tool _ w)) in *.
  set (w1 := snd (subprocess_run tool _ w)) in *.
  set (dims := match stdout r1 with
               | StreamsJson w0 h => (w0, h)
               | _ => (1280%Z, 720%Z)
               end) in *.
  destruct dims as [width height].
  rewrite bind_run in Hsome.
  pose proof (subprocess_run_history
                (black_cmd width height
                   (target_duration - current_duration + 0.5)
                   (temp_dir self // "black_outro.mp4")) w1) as H2.
  set (w2 := snd (subprocess_run tool _ w1)) in *.
  rewrite bind_run in Hsome.
  pose proof (subprocess_run_history
                (fade_cmd video_path (py_max 0 (current_duration - 1.5))
                   (temp_dir self // "video_faded.mp4")) w2) as H3.
  set (r3 := fst (subprocess_run tool _ w2)) in *.
  set (w3 := snd (subprocess_run tool _ w2)) in *.
  destruct (negb (returncode r3 =? 0)%Z); [discriminate|].
  rewrite !bind_run in Hsome. cbn [write_text absolute fst snd] in Hsome.
  match type of Hsome with
  | context [subprocess_run tool (outro_concat_cmd _ _ _) ?before] =>
      set (w3' := before) in *
  end.
  assert (H3' : history w3' = history w3) by reflexivity.
  pose proof (subprocess_run_history
                (outro_concat_cmd (temp_dir self // "outro_concat.txt")
                   target_duration (temp_dir self // "video_with_outro.mp4"))
                w3') as H4.
  set (r4 := fst (subprocess_run tool _ w3')) in *.
  set (w4' := snd (subprocess_run tool _ w3')) in *.
  destruct (returncode r4 =? 0)%Z; [|discriminate].
  rewrite bind_run in Hsome. cbn [path_exists fst snd] in Hsome.
  destruct (bool_decide (is_Some (fs w4' !! _))) eqn:Hex; [|discriminate].
  injection Hsome as <- <-.
  split; [reflexivity|]. split; [exact (bool_decide_eq_true_1 _ Hex)|].
  exists width, height.
  rewrite H4, H3', H3, H2, H1.
  rewrite py_max_Qmax, <- !app_assoc. reflexivity.
Qed.

(** When the synthesis returns nothing, [assemble] mixes onto the
    concatenated file and reports the measured duration. *)
Lemma assemble_outro_fallback (self : TimelineAssembler)
    (timeline : Timeline) (output_path : Path) (music_volume : Q)
    (w w3 w4 : World) (video_duration : Q)
    (Hcheck : duration_check tool self timeline w = (Some video_duration, w3))
    (Hshort : video_duration < voiceover_duration timeline)
    (Hnone : _create_outro_sequence tool self (concat_path self)
               video_duration (voiceover_duration timeline + 0.5)
               (last_text (prepared tool self timeline w)) w3 = (None, w4)) :
  assemble tool self timeline output_path music_volume w
  = mix_and_report tool self timeline output_path music_volume
      (concat_path self) video_duration w4.
Proof.
  rewrite assemble_from_duration_check, Hcheck.
  rewrite (proj1 (Qlt_alt _ _) Hshort), Hnone. reflexivity.
Qed.

(** ** Timeline builder *)

Lemma zip_segments_imap (i : Z) (voiceover_segments : list VoiceoverSegment)
    (video_clips : list string) :
  zip_segments i voiceover_segments video_clips
  = imap (λ k sc,
            MkTimelineSegment (i + Z.of_nat k)
              (default "" (seg_text (fst sc)))
              (default 0 (seg_start (fst sc)))
              (default 0 (seg_end (fst sc)))
              (Some (snd sc)) None)
      (zip voiceover_segments video_clips).
Proof.
  revert i video_clips.
  induction voiceover_segments as [|segment segs IH];
    intros i [|clip clips]; try reflexivity.
  cbn [zip_segments zip zip_with]. rewrite imap_cons. f_equal.
  - cbn. rewrite Z.add_0_r. reflexivity.
  - rewrite IH. apply imap_ext. intros k sc _. cbn.
    f_equal. lia.
Qed.

Lemma zip_segments_lower_bound (i : Z)
    (voiceover_segments : list VoiceoverSegment) (video_clips : list string) :
  Forall (λ k, (i <= k)%Z)
    (index <$> zip_segments i voiceover_segments video_clips).
Proof.
  revert i video_clips.
  induction voiceover_segments as [|segment segs IH];
    intros i [|clip clips]; try constructor.
  - cbn. lia.
  - eapply Forall_impl; [apply IH|]. cbn. intros k Hk. lia.
Qed.

Lemma zip_segments_ascending (i : Z)
    (voiceover_segments : list VoiceoverSegment) (video_clips : list string) :
  StronglySorted Z.lt
    (index <$> zip_segments i voiceover_segments video_clips).
Proof.
  revert i video_clips.
  induction voiceover_segments as [|segment segs IH];
    intros i [|clip clips]; try constructor.
  - apply IH.
  - eapply Forall_impl; [apply zip_segments_lower_bound|].
    cbn. intros k Hk. lia.
Qed.

(** C5, as the code has it.  [build_timeline] always returns a timeline; it
    pairs segment [i] with clip [i] for every position both lists have, so
    with lists of unequal length the surplus of the longer one is dropped
    and nothing is raised.  It is a function of its arguments alone. *)
Theorem build_timeline_pairs_positionally
    (voiceover_segments : list VoiceoverSegment) (video_clips : list string)
    (voiceover_path : string) (voiceover_duration : Q)
    (music_path : option string) :
  ∃ timeline : Timeline,
    build_timeline voiceover_segments video_clips voiceover_path
      voiceover_duration music_path = Returned timeline
    ∧ segments timeline
      = imap (λ i sc,
                MkTimelineSegment (Z.of_nat i)
                  (default "" (seg_text (fst sc)))
                  (default 0 (seg_start (fst sc)))
                  (default 0 (seg_end (fst sc)))
                  (Some (snd sc)) None)
          (zip voiceover_segments video_clips)
    ∧ length (segments timeline)
      = Nat.min (length voiceover_segments) (length video_clips)
    ∧ timeline
      = MkTimeline (segments timeline) (Some voiceover_path)
          voiceover_duration music_path.
Proof.
  eexists. split; [reflexivity|]. cbn [segments].
  split; [apply zip_segments_imap|].
  split; [|reflexivity].
  rewrite zip_segments_imap, length_imap, length_zip. reflexivity.
Qed.

(** ** Preparing and listing the clips *)

(** What one iteration of the preparation loop does, case by case. *)
Lemma prepare_segment_run (self : TimelineAssembler) (min_duration : Q)
    (segment : TimelineSegment) (w : World) :
  prepare_segment tool self min_duration segment w
  = match video_path segment with
    | None => (segment, w)
    | Some source =>
        if bool_decide (is_Some (fs w !! source))
        then
          let trim := trim_clip_to_duration tool source
                        (trimmed_path self segment)
                        (Qmax (duration segment) min_duration)
                        min_duration w in
          (set_trimmed_video_path
             (Some (if fst trim then trimmed_path self segment else source))
             segment,
           snd trim)
        else (segment, w)
    end.
Proof.
  unfold prepare_segment. destruct (video_path segment) as [source|] eqn:Hv;
    [|reflexivity].
  rewrite bind_run. cbn [path_exists fst snd].
  destruct (bool_decide (is_Some (fs w !! source))); [|reflexivity].
  cbn [negb]. rewrite bind_run, py_max_Qmax. fold (trimmed_path self segment).
  cbv zeta. destruct (fst (trim_clip_to_duration _ _ _ _ _ _)); reflexivity.
Qed.

Lemma prepare_segment_index (self : TimelineAssembler) (min_duration : Q)
    (segment : TimelineSegment) (w : World) :
  index (fst (prepare_segment tool self min_duration segment w))
  = index segment.
Proof.
  rewrite prepare_segment_run.
  destruct (video_path segment); [|reflexivity].
  destruct (bool_decide _); reflexivity.
Qed.

Lemma prepare_segments_cons (self : TimelineAssembler) (min_duration : Q)
    (segment : TimelineSegment) (rest : list TimelineSegment) (w : World) :
  prepare_segments tool self min_duration (segment :: rest) w
  = let first := prepare_segment tool self min_duration segment w in
    let others := prepare_segments tool self min_duration rest (snd first) in
    (fst first :: fst others, snd others).
Proof. cbn [prepare_segments]. rewrite !bind_run. reflexivity. Qed.

(** Preparation keeps the segments in place: same indices, same order. *)
Lemma prepare_segments_index (self : TimelineAssembler) (min_duration : Q)
    (segs : list TimelineSegment) (w : World) :
  index <$> fst (prepare_segments tool self min_duration segs w)
  = index <$> segs.
Proof.
  revert w. induction segs as [|segment rest IH]; intros w; [reflexivity|].
  rewrite prepare_segments_cons. cbn [fst fmap list_fmap].
  f_equal; [apply prepare_segment_index | apply IH].
Qed.

Lemma concat_line_run (segment : TimelineSegment) (w : World) :
  concat_line segment w = (option_list (clip_listed w segment), w).
Proof.
  unfold concat_line, clip_listed.
  destruct (trimmed_video_path segment) as [p|]; [|reflexivity].
  rewrite bind_run. cbn [path_exists fst snd].
  destruct (bool_decide _); [|reflexivity].
  rewrite bind_run. reflexivity.
Qed.

(** The loop of the concatenator reads the world and writes one line per
    listed segment, in the order of the timeline. *)
Lemma concat_lines_run (segs : list TimelineSegment) (w : World) :
  concat_lines segs w = (omap (clip_listed w) segs, w).
Proof.
  induction segs as [|segment rest IH]; [reflexivity|].
  cbn [concat_lines]. rewrite !bind_run, concat_line_run. cbn [fst snd].
  rewrite IH. cbn [fst snd ret omap list_omap].
  destruct (clip_listed w segment); reflexivity.
Qed.

(** The concatenation command sees the list file with exactly these lines. *)
Lemma concatenate_clips_run (self : TimelineAssembler) (timeline : Timeline)
    (output_path : Path) (w : World) :
  let concat_list := temp_dir self // "concat_timeline.txt" in
  let lines := concat_list_written self timeline w in
  let listed :=
    MkWorld (<[concat_list := Text lines]> (fs (list_opened self w)))
      (cwd w) (history w) in
  concatenate_clips tool self timeline output_path w
  = ((returncode
        (fst (subprocess_run tool (concat_cmd concat_list output_path)
                listed)) =? 0)%Z,
     snd (subprocess_run tool (concat_cmd concat_list output_path) listed)).
Proof.
  unfold concatenate_clips, concat_list_written, list_opened.
  rewrite !bind_run, concat_lines_run. reflexivity.
Qed.

Lemma filter_keeps_ascending {A : Type} (f : A → Z) (P : A → Prop)
    `{!∀ x, Decision (P x)} (l : list A) :
  StronglySorted Z.lt (f <$> l) → StronglySorted Z.lt (f <$> filter P l).
Proof.
  induction l as [|x l IH]; [intros; constructor|].
  cbn [fmap list_fmap]. intros Hs. apply StronglySorted_inv in Hs as [Hl Hx].
  rewrite filter_cons. destruct (decide (P x)); [|apply IH, Hl].
  cbn [fmap list_fmap]. constructor; [apply IH, Hl|].
  rewrite Forall_fmap in Hx |- *.
  apply Forall_forall. intros y Hy.
  apply list_elem_of_filter in Hy as [_ Hy].
  exact (proj1 (Forall_forall _ _) Hx y Hy).
Qed.

Lemma omap_lines_of_listed {A B : Type} (f : A → option B) (l : list A) :
  Forall2 (λ y x, f x = Some y) (omap f l) (filter (λ x, is_Some (f x)) l).
Proof.
  induction l as [|x l IH]; [constructor|].
  rewrite filter_cons. cbn [omap list_omap].
  destruct (decide (is_Some (f x))) as [Hx|Hx].
  - destruct (f x) as [y|] eqn:Hfx; [|destruct Hx; discriminate].
    constructor; [exact Hfx | exact IH].
  - destruct (f x); [exfalso; apply Hx; eauto | exact IH].
Qed.

(** C9.  For a timeline made by [build_timeline], whatever the external
    tools do during the trims: after the preparation the segments still
    carry the indices 0, 1, 2, ... in list order, and the lines written to
    the concatenation list are, one for one and in the same order, the lines
    of the segments that are listed, a sublist of the timeline whose indices
    are strictly ascending.  The concatenation command runs on a list file
    holding exactly these lines. *)
Theorem concat_list_in_narration_order (self : TimelineAssembler)
    (voiceover_segments : list VoiceoverSegment) (video_clips : list string)
    (voiceover_path : string) (voiceover_duration : Q)
    (music_path : option string) (min_duration : Q) (output_path : Path)
    (w : World) (timeline : Timeline)
    (Hbuilt : build_timeline voiceover_segments video_clips voiceover_path
                voiceover_duration music_path = Returned timeline) :
  let after := prepare_timeline_clips tool self timeline min_duration w in
  let timeline' := snd (fst after) in
  let w1 := snd after in
  let opened := list_opened self w1 in
  let listed :=
    filter (λ s, is_Some (clip_listed opened s)) (segments timeline') in
  let lines := concat_list_written self timeline' w1 in
  let concat_list := temp_dir self // "concat_timeline.txt" in
  index <$> segments timeline'
  = Z.of_nat <$> seq 0 (length (segments timeline))
  ∧ Forall2 (λ line s, clip_listed opened s = Some line) lines listed
  ∧ sublist listed (segments timeline')
  ∧ StronglySorted Z.lt (index <$> listed)
  ∧ concatenate_clips tool self timeline' output_path w1
    = (let run :=
         subprocess_run tool (concat_cmd concat_list output_path)
           (MkWorld (<[concat_list := Text lines]> (fs opened))
              (cwd w1) (history w1)) in
       ((returncode (fst run) =? 0)%Z, snd run)).
Proof.
  intros after timeline' w1 opened listed lines concat_list.
  injection Hbuilt as <-.
  assert (Hidx : index <$> segments timeline'
                 = index <$> zip_segments 0 voiceover_segments video_clips).
  { unfold timeline', after. rewrite prepare_timeline_clips_run.
    cbn [fst snd segments set_segments]. apply prepare_segments_index. }
  split; [|split; [|split; [|split]]].
  - rewrite Hidx. cbn [segments].
    rewrite zip_segments_imap, fmap_imap, length_imap.
    rewrite <- (imap_seq_0 (zip voiceover_segments video_clips) Z.of_nat).
    apply imap_ext. intros k sc _. reflexivity.
  - unfold lines, concat_list_written. fold opened.
    rewrite concat_lines_run. cbn [fst]. apply omap_lines_of_listed.
  - apply sublist_filter.
  - apply filter_keeps_ascending. rewrite Hidx.
    apply zip_segments_ascending.
  - apply concatenate_clips_run.
Qed.

(** C3, as the code has it.  For a segment with no trimmed clip yet:
    - if its source clip is not on disk, the preparation leaves it as it is
      and runs nothing, and the concatenator writes no line for it;
    - if its source clip is on disk, the preparation is the trim of that
      clip, and the trimmed-clip field is set in either case: to the trimmed
      file when the transcode succeeds, to the untrimmed source when it
      fails; in the latter case the concatenator lists the source clip
      wherever it is still on disk;
    - a probe that yields no duration does not prevent the transcode: it is
      requested over an assumed source of 4 seconds. *)
Theorem unusable_clip_policy (self : TimelineAssembler) (min_duration : Q)
    (segment : TimelineSegment) (w : World)
    (Hfresh : trimmed_video_path segment = None) :
  let after := prepare_segment tool self min_duration segment w in
  ((∀ source, video_path segment = Some source → fs w !! source = None) →
   after = (segment, w) ∧ ∀ w', concat_line segment w' = ([], w'))
  ∧ (∀ source,
       video_path segment = Some source → is_Some (fs w !! source) →
       let trim := trim_clip_to_duration tool source
                     (trimmed_path self segment)
                     (Qmax (duration segment) min_duration) min_duration w in
       snd after = snd trim
       ∧ trimmed_video_path (fst after)
         = Some (if fst trim then trimmed_path self segment else source)
       ∧ (fst trim = false →
          ∀ w', is_Some (fs w' !! source) →
                concat_line (fst after) w'
                = ([file_line (fst (absolute source w'))], w')))
  ∧ (∀ input_path output_path target_duration,
       (∀ d, stdout (fst (tool (probe_duration_cmd input_path) w))
             ≠ FormatJson d) →
       history (snd (trim_clip_to_duration tool input_path output_path
                       target_duration min_duration w))
       = (history w ++
           [probe_duration_cmd input_path;
            trim_cmd input_path output_path
              (Qmin (Qmax target_duration min_duration) 4.0)])%list).
Proof.
  intros after. unfold after. rewrite prepare_segment_run.
  split; [|split].
  - intros Hmissing. split.
    + destruct (video_path segment) as [source|]; [|reflexivity].
      rewrite (Hmissing source eq_refl).
      rewrite bool_decide_eq_false_2 by apply is_Some_None. reflexivity.
    + intros w'. rewrite concat_line_run. unfold clip_listed.
      rewrite Hfresh. reflexivity.
  - intros source Hsource Hdisk. rewrite Hsource.
    rewrite bool_decide_eq_true_2 by exact Hdisk. cbv zeta.
    cbn [fst snd]. split; [reflexivity|]. split; [reflexivity|].
    intros Hfail w' Hdisk'. rewrite Hfail, concat_line_run.
    unfold clip_listed. cbn [trimmed_video_path set_trimmed_video_path].
    rewrite bool_decide_eq_true_2 by exact Hdisk'. reflexivity.
  - intros input_path output_path target_duration Hprobe.
    pose proof (trim_clip_to_duration_history input_path output_path
                  target_duration min_duration w) as H.
    cbv zeta in H. rewrite H.
    destruct (stdout (fst (tool (probe_duration_cmd input_path) w))) eqn:Hout;
      try reflexivity.
    exfalso. exact (Hprobe _ eq_refl).
Qed.

(** ** The mix command *)

(** By the rules of the muxer, the file either mix command writes lasts as
    long as the longer of its video and its voiceover. *)
Lemma mix_command_duration (video_path : Path)
    (voiceover_path music_path : option string) (output_path : Path)
    (music_volume : Q) (w : World) (len : string → Q) :
  Ffmpeg.mux_duration len
    (mix_command video_path voiceover_path music_path output_path
       music_volume w)
  = Some (Qmax (len video_path) (len (py_str voiceover_path))).
Proof.
  unfold mix_command.
  destruct (fst (usable_music music_path w)); reflexivity.
Qed.

(** In particular the video decides when it is at least as long as the
    voiceover, which is what [assemble] arranges unless the outro falls
    back. *)
Lemma mix_command_duration_covered (video_path : Path)
    (voiceover_path music_path : option string) (output_path : Path)
    (music_volume : Q) (w : World) (len : string → Q) :
  len (py_str voiceover_path) <= len video_path →
  Ffmpeg.mux_duration len
    (mix_command video_path voiceover_path music_path output_path
       music_volume w)
  = Some (len video_path).
Proof.
  intros Hle. rewrite mix_command_duration. f_equal.
  unfold Qmax, GenericMinMax.gmax.
  destruct (len video_path ?= len (py_str voiceover_path))%Q eqn:Hcmp;
    try reflexivity.
  apply Qlt_alt in Hcmp. exfalso. revert Hcmp. apply Qle_not_lt, Hle.
Qed.

(** C6, as the code has it.  A mix runs one command.  It carries neither
    [-shortest] nor [-t]; it maps the video stream of its first input and
    one audio stream whose length is the voiceover's, with or without music
    ([duration=first] makes the voiceover, the first input of [amix], decide
    the length of the mixed audio).  By the rules of the muxer the file
    written lasts as long as the longer of video and voiceover. *)
Theorem mix_output_lasts_as_longest_stream (self : TimelineAssembler)
    (video_path : Path) (voiceover_path music_path : option string)
    (output_path : Path) (music_volume : Q) (w : World)
    (len : string → Q) :
  let cmd := mix_command video_path voiceover_path music_path output_path
               music_volume w in
  history (snd (mix_final_audio tool self video_path voiceover_path
                  music_path output_path music_volume w))
  = (history w ++ [cmd])%list
  ∧ has_flag "-shortest" cmd = false
  ∧ flag_value "-t" cmd = None
  ∧ option_values "-map" cmd !! 0%nat = Some (Stream (InputStream 0 "v"))
  ∧ Ffmpeg.mux_duration len cmd
    = Some (Qmax (len video_path) (len (py_str voiceover_path))).
Proof.
  intros cmd. split.
  - rewrite mix_final_audio_run. apply subprocess_run_history.
  - split; [|split; [|split; [|apply mix_command_duration]]];
      unfold cmd, mix_command;
      destruct (fst (usable_music music_path w)); reflexivity.
Qed.

(** C8, as the code has it.  With a music file present,
    [mix_final_audio] builds [mix_music_cmd]: inside its filter graph the
    voiceover and the music are both resampled to 48000 Hz, the music is
    scaled by [music_volume], and the two are mixed by [amix] with
    [duration=first] and [normalize=0]; no filter follows [amix].
    [AudioMixer.mix_voice_and_music] runs, in this order, a probe of the
    voice, the command that resamples the voice to the target rate into
    [voice_normalized.wav], a probe of the music, the command that resamples
    the music to the target rate into [music_normalized.wav], and the mix
    command; only the commands of the validation may follow.  The mix
    command reads these two files as its audio inputs, scales them by the
    configured volumes (music 0.15 by default), mixes with [amix]
    [normalize=0] and then applies [volume=1.5]. *)
Theorem mix_graph_with_music (self : TimelineAssembler) (video_path : Path)
    (voiceover_path : option string) (music : string) (output_path : Path)
    (music_volume : Q) (w : World) (cfg : AudioMixer.AudioMixConfig)
    (parent : string → string) (voice : Path)
    (Hmusic : is_Some (fs w !! music)) :
  let cmd := mix_music_cmd video_path (py_str voiceover_path) music
               music_volume output_path in
  let g := mix_filter_complex music_volume in
  let rate := AudioMixer.target_sample_rate cfg in
  let voice_norm := parent output_path // "voice_normalized.wav" in
  let music_norm := parent output_path // "music_normalized.wav" in
  let voice_cmd channels :=
    AudioMixer.voice_normalize_cmd cfg voice channels voice_norm in
  let music_cmd := AudioMixer.music_normalize_cmd cfg music music_norm in
  let cmd' := AudioMixer.mix_cmd cfg video_path voice_norm music_norm
                output_path in
  let g' := AudioMixer.filter_complex cfg in
  (history (snd (mix_final_audio tool self video_path voiceover_path
                   (Some music) output_path music_volume w))
   = (history w ++ [cmd])%list
   ∧ flag_value "-filter_complex" cmd = Some (FilterComplex g)
   ∧ mix_inputs g
     = [([InputStream 1 "a"], [Aresample 48000]);
        ([InputStream 2 "a"], [Aresample 48000; Volume music_volume])]
   ∧ amix_filter g = Some (Amix 2 DurFirst None false)
   ∧ post_mix_filters g = Some [])
  ∧ ((∃ channels validation,
        history (snd (AudioMixer.mix_voice_and_music tool parent cfg
                        video_path voice music output_path w))
        = (history w ++
            [AudioMixer.audio_info_cmd voice;
             voice_cmd channels;
             AudioMixer.audio_info_cmd music;
             music_cmd;
             cmd'] ++ validation)%list
        ∧ (validation = []
           ∨ validation
             = [AudioMixer.audio_info_cmd output_path;
                AudioMixer.peak_level_cmd output_path;
                AudioMixer.loudness_cmd output_path]))
     ∧ (∀ channels,
          flag_value "-i" (voice_cmd channels) = Some (Lit voice)
          ∧ (∃ rest,
               flag_value "-af" (voice_cmd channels)
               = Some (AudioFilters (Aresample rate :: rest)))
          ∧ flag_value "-ar" (voice_cmd channels) = Some (Int rate)
          ∧ last (voice_cmd channels) = Some (Lit voice_norm))
     ∧ (flag_value "-i" music_cmd = Some (Lit music)
        ∧ flag_value "-af" music_cmd = Some (AudioFilters [Aresample rate])
        ∧ flag_value "-ar" music_cmd = Some (Int rate)
        ∧ last music_cmd = Some (Lit music_norm))
     ∧ option_values "-i" cmd'
       = [Lit video_path; Lit voice_norm; Lit music_norm]
     ∧ flag_value "-filter_complex" cmd' = Some (FilterComplex g')
     ∧ mix_inputs g'
       = [([InputStream 1 "a"], [Volume (AudioMixer.voice_volume cfg)]);
          ([InputStream 2 "a"], [Volume (AudioMixer.music_volume cfg)])]
     ∧ amix_filter g' = Some (Amix 2 DurFirst (Some 0%Z) false)
     ∧ post_mix_filters g' = Some [Volume 1.5]
     ∧ AudioMixer.music_volume AudioMixer.default_config == 0.15).
Proof.
  intros cmd g rate voice_norm music_norm voice_cmd music_cmd cmd' g'. split.
  - split; [|repeat split].
    rewrite mix_final_audio_run. cbn [snd]. rewrite subprocess_run_history.
    unfold mix_command, usable_music. rewrite bind_run.
    cbn [path_exists fst snd].
    rewrite bool_decide_eq_true_2 by exact Hmusic. reflexivity.
  - split; [|split; [|repeat split]].
    + unfold AudioMixer.mix_voice_and_music, AudioMixer.get_audio_info.
      rewrite !bind_run. cbn [ret fst snd].
      fold voice_norm music_norm. fold music_cmd cmd'.
      eexists.
      destruct (negb (returncode _ =? 0)%Z).
      * exists []. split; [|left; reflexivity].
        cbn [AudioMixer.unlink ret fst snd history].
        rewrite !subprocess_run_history, <- !app_assoc. reflexivity.
      * eexists. split; [|right; reflexivity].
        unfold AudioMixer.validate_audio, AudioMixer.get_audio_info.
        rewrite !bind_run. cbn [ret fst snd].
        rewrite !subprocess_run_history.
        cbn [AudioMixer.unlink fst snd history].
        rewrite !subprocess_run_history, <- !app_assoc. reflexivity.
    + intros channels. repeat split. eexists. reflexivity.
Qed.

End Properties.

(** * The properties on concrete runs *)

Import Scenario.

Lemma pair_eq_from_fst {A B : Type} (p : A * B) (a : A) :
  fst p = a → p = (a, snd p).
Proof. destruct p; cbn; intros ->; reflexivity. Qed.

(** C1 at work: a 5 s clip asked to fill 6 s is requested at 5 s. *)
Lemma trim_requests_min_max_witness :
  history (snd (trim_clip_to_duration (studio probe never) "/c/a.mp4"
                  "/tmp/t/trimmed_000.mp4" 6 2.5 disk))
  = [probe_duration_cmd "/c/a.mp4";
     trim_cmd "/c/a.mp4" "/tmp/t/trimmed_000.mp4" (Qmin (Qmax 6 2.5) 5)]
  ∧ Qmin (Qmax 6 2.5) 5 = 5.
Proof.
  pose proof (trim_requests_min_max (studio probe never) "/c/a.mp4"
                "/tmp/t/trimmed_000.mp4" 6 2.5 5 disk eq_refl)
    as (Hhist & _ & _ & Hfull).
  split; [exact Hhist|]. apply Hfull. reflexivity.
Defined.

(** C5 refuted as stated: two segments and one clip give a timeline of one
    segment, not an error. *)
Lemma build_timeline_mismatch_is_not_an_error :
  length narration ≠ length ["/c/a.mp4"]
  ∧ build_timeline narration ["/c/a.mp4"] "/vo.mp3" 12 None
    = Returned
        (MkTimeline
           [MkTimelineSegment 0 "one" 0 6 (Some "/c/a.mp4") None]
           (Some "/vo.mp3") 12 None)
  ∧ build_timeline narration ["/c/a.mp4"] "/vo.mp3" 12 None
    ≠ Raised "MismatchedInputError".
Proof. split; [cbn; lia|]. split; [reflexivity|discriminate]. Qed.

(** C9 at work on the scenario. *)
Lemma concat_list_in_narration_order_witness :
  concat_list_written self
    (snd (fst (prepare_timeline_clips (studio probe never) self timeline
                 2.5 disk)))
    (snd (prepare_timeline_clips (studio probe never) self timeline 2.5
            disk))
  = [file_line "/tmp/t/trimmed_000.mp4"; file_line "/tmp/t/trimmed_001.mp4"]
  ∧ StronglySorted Z.lt
      (index <$>
         filter
           (λ s, is_Some
                   (clip_listed
                      (list_opened self
                         (snd (prepare_timeline_clips (studio probe never)
                                 self timeline 2.5 disk)))
                      s))
           (segments
              (snd (fst (prepare_timeline_clips (studio probe never) self
                           timeline 2.5 disk))))).
Proof.
  pose proof (concat_list_in_narration_order (studio probe never) self
                narration clips "/vo.mp3" 12 None 2.5
                "/tmp/t/timeline_concat.mp4" disk timeline eq_refl)
    as (_ & _ & _ & Hsorted & _).
  split; [vm_compute; reflexivity | exact Hsorted].
Defined.

(** C4 at work: the concatenation lasts 20 s, the voiceover 12 s. *)
Lemma outro_skipped_witness :
  history (snd (assemble (studio probe_long never) self timeline
                  "/out/final.mp4" 0.15 disk))
  = (history (snd (duration_check (studio probe_long never) self timeline
                     disk))
     ++ [mix_voice_cmd "/tmp/t/timeline_concat.mp4" "/vo.mp3"
           "/out/final.mp4"])%list
  ∧ black_fill_durations
      (history (snd (assemble (studio probe_long never) self timeline
                       "/out/final.mp4" 0.15 disk))) = [].
Proof.
  pose proof (outro_skipped_when_video_covers_voiceover
                (studio probe_long never) self timeline "/out/final.mp4" 0.15
                disk
                (snd (duration_check (studio probe_long never) self timeline
                        disk))
                20
                (pair_eq_from_fst _ _ ltac:(vm_compute; reflexivity))
                ltac:(vm_compute; discriminate))
    as (_ & Hhist & _).
  split; [|vm_compute; reflexivity].
  rewrite Hhist. f_equal.
Defined.

(** C2 refuted as stated: with a concatenation of 11 s under a voiceover of
    12 s the gap is 1 s, the outro succeeds, and the black fill requested
    lasts 2 s, not 1.5 s.  Nor does a successful synthesis cover the
    voiceover by itself: when the black fill fails next to a black clip of a
    quarter of a second left by an earlier run, the synthesis still returns
    the spliced file, whose list names the faded video of 11 s and that
    clip, so that by the rule of the concat demuxer it lasts 11.25 s. *)
Lemma black_fill_is_not_gap_plus_half :
  (fst (duration_check (studio probe never) self timeline disk) = Some 11
   ∧ 11 < voiceover_duration timeline
   ∧ fst (assemble (studio probe never) self timeline "/out/final.mp4" 0.15
            disk)
     = Success "/out/final.mp4" 12 (12 + 0.5)
   ∧ ∃ d,
       black_fill_durations
         (history (snd (assemble (studio probe never) self timeline
                          "/out/final.mp4" 0.15 disk))) = [d]
       ∧ d == 2
       ∧ ¬ d == (voiceover_duration timeline - 11) + 0.5)
  ∧ (let w3 := snd (duration_check (studio probe is_black_fill) self timeline
                      stale_disk) in
     let outro := _create_outro_sequence (studio probe is_black_fill) self
                    (concat_path self) 11 (voiceover_duration timeline + 0.5)
                    (last_text
                       (prepared (studio probe is_black_fill) self timeline
                          stale_disk))
                    w3 in
     fst (duration_check (studio probe is_black_fill) self timeline
            stale_disk) = Some 11
     ∧ fst outro = Some "/tmp/t/video_with_outro.mp4"
     ∧ fs (snd outro) !! "/tmp/t/outro_concat.txt"
       = Some (Text [file_line "/tmp/t/video_faded.mp4";
                     file_line "/tmp/t/black_outro.mp4"])
     ∧ last (history (snd outro)) = Some (splice_cmd self (12 + 0.5))
     ∧ concat_duration stale_len
         ["/tmp/t/video_faded.mp4"; "/tmp/t/black_outro.mp4"]
         (splice_cmd self (12 + 0.5)) == 11.25
     ∧ concat_duration stale_len
         ["/tmp/t/video_faded.mp4"; "/tmp/t/black_outro.mp4"]
         (splice_cmd self (12 + 0.5)) < voiceover_duration timeline).
Proof.
  split.
  - split; [vm_compute; reflexivity|].
    split; [vm_compute; reflexivity|].
    split; [vm_compute; reflexivity|].
    eexists. split; [vm_compute; reflexivity|].
    split; [vm_compute; reflexivity|].
    intros H. vm_compute in H. discriminate H.
  - repeat split; vm_compute; reflexivity.
Qed.

(** C7 on a failing run.  The temporary directory still holds the black
    clip of an earlier run.  The black fill exits with status 1 and writes
    nothing, the fade and the splice exit with 0.  The synthesis returns the
    spliced file, and the mix is given that file instead of the concatenated
    video. *)
Lemma black_fill_failure_goes_unnoticed :
  returncode
    (fst (studio probe is_black_fill
            (black_cmd 1280 720 (12 + 0.5 - 11 + 0.5)
               "/tmp/t/black_outro.mp4") stale_disk)) = 1%Z
  ∧ In (black_cmd 1280 720 (12 + 0.5 - 11 + 0.5) "/tmp/t/black_outro.mp4")
      (history (snd (assemble (studio probe is_black_fill) self timeline
                       "/out/final.mp4" 0.15 stale_disk)))
  ∧ last (history (snd (assemble (studio probe is_black_fill) self timeline
                          "/out/final.mp4" 0.15 stale_disk)))
    = Some (mix_voice_cmd "/tmp/t/video_with_outro.mp4" "/vo.mp3"
              "/out/final.mp4")
  ∧ "/tmp/t/video_with_outro.mp4" ≠ concat_path self
  ∧ fst (assemble (studio probe is_black_fill) self timeline
           "/out/final.mp4" 0.15 stale_disk)
    = Success "/out/final.mp4" 12 (12 + 0.5).
Proof.
  split; [vm_compute; reflexivity|].
  split; [vm_compute; tauto|].
  split; [vm_compute; reflexivity|].
  split; [vm_compute; discriminate|].
  vm_compute; reflexivity.
Qed.

(** The two steps whose result is looked at: when the fade fails, or when
    the splice fails, the mix is given the concatenated video. *)
Example fade_failure_falls_back :
  last (history (snd (assemble (studio probe is_fade) self timeline
                        "/out/final.mp4" 0.15 disk)))
  = Some (mix_voice_cmd (concat_path self) "/vo.mp3" "/out/final.mp4")
  ∧ fst (assemble (studio probe is_fade) self timeline "/out/final.mp4" 0.15
           disk)
    = Success "/out/final.mp4" 12 11.
Proof. split; vm_compute; reflexivity. Qed.

Example splice_failure_falls_back :
  last (history (snd (assemble (studio probe is_splice) self timeline
                        "/out/final.mp4" 0.15 disk)))
  = Some (mix_voice_cmd (concat_path self) "/vo.mp3" "/out/final.mp4")
  ∧ fst (assemble (studio probe is_splice) self timeline "/out/final.mp4"
           0.15 disk)
    = Success "/out/final.mp4" 12 11.
Proof. split; vm_compute; reflexivity. Qed.

(** C3 refuted as stated: every trim transcode fails, yet each segment gets
    a trimmed clip, its untrimmed source, and both sources are written to
    the concatenation list. *)
Lemma failed_trim_substitutes_source :
  fst (trim_clip_to_duration (studio probe is_trim) "/c/a.mp4"
         "/tmp/t/trimmed_000.mp4" 6 2.5 disk) = false
  ∧ trimmed_video_path <$>
      segments
        (snd (fst (prepare_timeline_clips (studio probe is_trim) self
                     timeline 2.5 disk)))
    = [Some "/c/a.mp4"; Some "/c/b.mp4"]
  ∧ concat_list_written self
      (snd (fst (prepare_timeline_clips (studio probe is_trim) self timeline
                   2.5 disk)))
      (snd (prepare_timeline_clips (studio probe is_trim) self timeline 2.5
              disk))
    = [file_line "/c/a.mp4"; file_line "/c/b.mp4"].
Proof. repeat split; vm_compute; reflexivity. Qed.

(** C3 at work: the first segment of the scenario under failing trims. *)
Lemma unusable_clip_policy_witness :
  trimmed_video_path
    (fst (prepare_segment (studio probe is_trim) self 2.5
            (MkTimelineSegment 0 "one" 0 6 (Some "/c/a.mp4") None) disk))
  = Some "/c/a.mp4".
Proof.
  pose proof (unusable_clip_policy (studio probe is_trim) self 2.5
                (MkTimelineSegment 0 "one" 0 6 (Some "/c/a.mp4") None) disk
                eq_refl) as (_ & Hsource & _).
  destruct (Hsource "/c/a.mp4" eq_refl ltac:(vm_compute; eauto))
    as (_ & Hfield & _).
  rewrite Hfield. vm_compute. reflexivity.
Defined.

(** C6 refuted as stated: over a 10 s video and a 12 s voiceover the file
    written lasts 12 s, with music and without. *)
Lemma mix_output_outlasts_video :
  len "/tmp/t/timeline_concat.mp4" = 10
  ∧ (∃ cmd,
       last (history (snd (mix_final_audio (studio probe never) self
                             "/tmp/t/timeline_concat.mp4" (Some "/vo.mp3")
                             None "/out/final.mp4" 0.15 disk)))
       = Some cmd
       ∧ Ffmpeg.mux_duration len cmd = Some 12)
  ∧ (∃ cmd,
       last (history (snd (mix_final_audio (studio probe never) self
                             "/tmp/t/timeline_concat.mp4" (Some "/vo.mp3")
                             (Some "/music.mp3") "/out/final.mp4" 0.15
                             disk)))
       = Some cmd
       ∧ flag_value "-filter_complex" cmd
         = Some (FilterComplex (mix_filter_complex 0.15))
       ∧ Ffmpeg.mux_duration len cmd = Some 12)
  ∧ ¬ 12 == len "/tmp/t/timeline_concat.mp4".
Proof.
  split; [reflexivity|].
  split; [eexists; split; vm_compute; reflexivity|].
  split; [eexists; repeat split; vm_compute; reflexivity|].
  intros H. vm_compute in H. discriminate H.
Qed.

(** C8 refuted as stated: the command [mix_final_audio] runs with music
    present has [amix] as the last filter of its graph; no gain follows. *)
Lemma timeline_mix_has_no_post_mix_gain :
  is_Some (fs disk !! "/music.mp3")
  ∧ ∃ cmd g,
      last (history (snd (mix_final_audio (studio probe never) self
                            "/tmp/t/timeline_concat.mp4" (Some "/vo.mp3")
                            (Some "/music.mp3") "/out/final.mp4" 0.15 disk)))
      = Some cmd
      ∧ flag_value "-filter_complex" cmd = Some (FilterComplex g)
      ∧ amix_filter g = Some (Amix 2 DurFirst None false)
      ∧ post_mix_filters g = Some [].
Proof.
  split; [vm_compute; eauto|].
  do 2 eexists. repeat split; vm_compute; reflexivity.
Qed.

(** C8 at work on the same call. *)
Lemma mix_graph_with_music_witness :
  post_mix_filters (mix_filter_complex 0.15) = Some []
  ∧ post_mix_filters (AudioMixer.filter_complex AudioMixer.default_config)
    = Some [Volume 1.5].
Proof.
  pose proof (mix_graph_with_music (studio probe never) self
                "/tmp/t/timeline_concat.mp4" (Some "/vo.mp3") "/music.mp3"
                "/out/final.mp4" 0.15 disk AudioMixer.default_config
                (λ _, "/out") "/vo.mp3"
                ltac:(vm_compute; eauto))
    as ((_ & _ & _ & _ & Hnone) & (_ & _ & _ & _ & _ & _ & _ & Hgain & _)).
  split; [exact Hnone | exact Hgain].
Defined.

(** A run of [AudioMixer.mix_voice_and_music] on a mono voice: the voice is
    resampled and spread to stereo, the music resampled, the two results
    mixed; the intermediate files are removed and the output is
    validated. *)
Example mix_voice_and_music_run :
  let run := AudioMixer.mix_voice_and_music (studio probe_mono never)
               (λ _, "/out") AudioMixer.default_config
               "/tmp/t/timeline_concat.mp4" "/vo.mp3" "/music.mp3"
               "/out/final.mp4" disk in
  fst run = AudioMixer.MixSuccess "/out/final.mp4"
  ∧ history (snd run)
    = [AudioMixer.audio_info_cmd "/vo.mp3";
       AudioMixer.voice_normalize_cmd AudioMixer.default_config "/vo.mp3" 1
         "/out/voice_normalized.wav";
       AudioMixer.audio_info_cmd "/music.mp3";
       AudioMixer.music_normalize_cmd AudioMixer.default_config "/music.mp3"
         "/out/music_normalized.wav";
       AudioMixer.mix_cmd AudioMixer.default_config
         "/tmp/t/timeline_concat.mp4" "/out/voice_normalized.wav"
         "/out/music_normalized.wav" "/out/final.mp4";
       AudioMixer.audio_info_cmd "/out/final.mp4";
       AudioMixer.peak_level_cmd "/out/final.mp4";
       AudioMixer.loudness_cmd "/out/final.mp4"]
  ∧ flag_value "-af"
      (AudioMixer.voice_normalize_cmd AudioMixer.default_config "/vo.mp3" 1
         "/out/voice_normalized.wav")
    = Some (AudioFilters [Aresample 48000; PanStereo])
  ∧ fs (snd run) !! "/out/voice_normalized.wav" = None
  ∧ fs (snd run) !! "/out/music_normalized.wav" = None
  ∧ fs (snd run) !! "/out/final.mp4" = Some Media.
Proof. repeat split; vm_compute; reflexivity. Qed.

(** * Further properties of the assembler *)

Lemma Qmax_floor_twice (a m : Q) : Qmax (Qmax a m) m = Qmax a m.
Proof.
  unfold Qmax, GenericMinMax.gmax.
  destruct (a ?= m)%Q eqn:Ham; rewrite ?Ham; try reflexivity.
  rewrite (proj1 (Qeq_alt m m) (Qeq_refl m)). reflexivity.
Qed.

Lemma timeline_eta (t : Timeline) : set_segments (segments t) t = t.
Proof. destruct t; reflexivity. Qed.

Section Preparation.

Context (tool : list Arg → World → Completed * gmap string File).

Lemma prepare_segment_prepared_from (self : TimelineAssembler)
    (min_duration : Q) (segment : TimelineSegment) (w : World) :
  prepared_from self segment
    (fst (prepare_segment tool self min_duration segment w)).
Proof.
  rewrite prepare_segment_run. unfold prepared_from.
  destruct (video_path segment) as [source|] eqn:Hsource; [|left; reflexivity].
  destruct (bool_decide _); [|left; reflexivity].
  cbv zeta. cbn [fst].
  destruct (fst (trim_clip_to_duration _ _ _ _ _ _)).
  - right. left. reflexivity.
  - right. right. split; [eauto | reflexivity].
Qed.

(** X1.  Preparation keeps the timeline's segments one for one.  Each
    segment comes out as it went in, or with its trimmed path set to its own
    trimmed file, or with its trimmed path set to its own source clip; no
    other field of a segment changes, and the voiceover path, voiceover
    duration and music path of the timeline are kept. *)
Theorem prepare_changes_only_trimmed_paths (self : TimelineAssembler)
    (timeline : Timeline) (min_duration : Q) (w : World) :
  let timeline' :=
    snd (fst (prepare_timeline_clips tool self timeline min_duration w)) in
  Forall2 (prepared_from self) (segments timeline) (segments timeline')
  ∧ timeline' = set_segments (segments timeline') timeline.
Proof.
  intros timeline'. unfold timeline'. clear timeline'.
  rewrite prepare_timeline_clips_run. cbn [fst snd segments set_segments].
  split; [|reflexivity].
  generalize (segments timeline) as segs. intros segs. revert w.
  induction segs as [|segment rest IH]; intros w; [constructor|].
  rewrite prepare_segments_cons. cbn [fst].
  constructor; [apply prepare_segment_prepared_from | apply IH].
Qed.

Lemma prepare_segment_commands (self : TimelineAssembler)
    (min_duration : Q) (segment : TimelineSegment) (w : World) :
  ∃ cmds,
    history (snd (prepare_segment tool self min_duration segment w))
    = (history w ++ cmds)%list
    ∧ Forall (prepares self segment) cmds
    ∧ (length cmds <= 2)%nat.
Proof.
  rewrite prepare_segment_run.
  destruct (video_path segment) as [source|] eqn:Hsource.
  2: { exists []. rewrite app_nil_r. repeat split; [constructor | cbn; lia]. }
  destruct (bool_decide _).
  2: { exists []. rewrite app_nil_r. repeat split; [constructor | cbn; lia]. }
  cbv zeta. cbn [snd].
  pose proof (trim_clip_to_duration_history tool source
                (trimmed_path self segment)
                (Qmax (duration segment) min_duration) min_duration w) as H.
  cbv zeta in H. eexists. split; [exact H|]. split; [|cbn; lia].
  repeat constructor; exists source; split; eauto.
Qed.

(** X2.  Preparation runs nothing but probes and trims of the segments' own
    source clips, each trim writing to the trimmed path of its segment, and
    at most two commands per segment. *)
Theorem prepare_runs_only_probes_and_trims (self : TimelineAssembler)
    (timeline : Timeline) (min_duration : Q) (w : World) :
  ∃ cmds,
    history (snd (prepare_timeline_clips tool self timeline min_duration w))
    = (history w ++ cmds)%list
    ∧ Forall (λ cmd, Exists (λ s, prepares self s cmd) (segments timeline))
        cmds
    ∧ (length cmds <= 2 * length (segments timeline))%nat.
Proof.
  rewrite prepare_timeline_clips_run. cbn [snd].
  generalize (segments timeline) as segs. intros segs. revert w.
  induction segs as [|segment rest IH]; intros w.
  - exists []. rewrite app_nil_r. repeat split; [constructor | cbn; lia].
  - rewrite prepare_segments_cons. cbn [snd].
    destruct (prepare_segment_commands self min_duration segment w)
      as (c1 & H1 & F1 & L1).
    destruct (IH (snd (prepare_segment tool self min_duration segment w)))
      as (c2 & H2 & F2 & L2).
    exists (c1 ++ c2)%list. rewrite H2, H1, app_assoc.
    split; [reflexivity|]. split.
    + apply Forall_app. split.
      * eapply Forall_impl; [exact F1|]. intros cmd Hc.
        apply Exists_cons_hd, Hc.
      * eapply Forall_impl; [exact F2|]. intros cmd Hc.
        apply Exists_cons_tl, Hc.
    + rewrite length_app. cbn [length]. lia.
Qed.

(** X3.  When no segment has its source clip on disk (in particular for an
    empty timeline), preparation runs no command, writes nothing and leaves
    the timeline as it is. *)
Theorem prepare_without_sources (self : TimelineAssembler)
    (timeline : Timeline) (min_duration : Q) (w : World)
    (Hmissing : Forall (λ s, ∀ p, video_path s = Some p → fs w !! p = None)
                  (segments timeline)) :
  prepare_timeline_clips tool self timeline min_duration w
  = ((true, timeline), w).
Proof.
  rewrite prepare_timeline_clips_run.
  assert (H : prepare_segments tool self min_duration (segments timeline) w
              = (segments timeline, w)).
  { induction Hmissing as [|segment rest Hseg _ IH]; [reflexivity|].
    rewrite prepare_segments_cons.
    assert (Hone : prepare_segment tool self min_duration segment w
                   = (segment, w)).
    { rewrite prepare_segment_run.
      destruct (video_path segment) as [source|]; [|reflexivity].
      rewrite (Hseg source eq_refl).
      rewrite bool_decide_eq_false_2 by apply is_Some_None. reflexivity. }
    rewrite Hone. cbn [fst snd]. rewrite IH. reflexivity. }
  rewrite H. cbn [fst snd]. rewrite timeline_eta. reflexivity.
Qed.

(** X4.  For a segment whose source clip is on disk, preparation runs the
    probe and one transcode; the floor is applied twice, by the caller and
    by the trimmer, and the duration requested is
    [min (max vo_duration min_duration) source_duration], where the source
    duration is the probed one, or 4 s when the probe yields none.  It lies
    between [min min_duration source_duration] and [source_duration]. *)
Theorem prepare_segment_requests_floored_duration (self : TimelineAssembler)
    (min_duration : Q) (segment : TimelineSegment) (source : string)
    (w : World)
    (Hsource : video_path segment = Some source)
    (Hdisk : is_Some (fs w !! source)) :
  let source_duration :=
    match stdout (fst (tool (probe_duration_cmd source) w)) with
    | FormatJson d => d
    | _ => 4.0
    end in
  let d := Qmin (Qmax (duration segment) min_duration) source_duration in
  history (snd (prepare_segment tool self min_duration segment w))
  = (history w ++
      [probe_duration_cmd source;
       trim_cmd source (trimmed_path self segment) d])%list
  ∧ Qmin min_duration source_duration <= d
  ∧ d <= source_duration.
Proof.
  intros source_duration d. split; [|split].
  - rewrite prepare_segment_run, Hsource.
    rewrite bool_decide_eq_true_2 by exact Hdisk. cbv zeta. cbn [snd].
    pose proof (trim_clip_to_duration_history tool source
                  (trimmed_path self segment)
                  (Qmax (duration segment) min_duration) min_duration w)
      as H.
    cbv zeta in H. rewrite H, Qmax_floor_twice. reflexivity.
  - apply Q.min_le_compat_r, Q.le_max_r.
  - apply Q.le_min_r.
Qed.

End Preparation.

Section Synthesis.

Context (tool : list Arg → World → Completed * gmap string File).

(** The synthesis is its first three commands, the check of the fade, and
    then the splice in the world where the list file is written. *)
Lemma create_outro_sequence_stages (self : TimelineAssembler)
    (video_path : Path) (current_duration target_duration : Q)
    (cta_text : string) (w : World) :
  _create_outro_sequence tool self video_path current_duration
    target_duration cta_text w
  = let faded := outro_faded tool self video_path current_duration
                   target_duration w in
    if negb (returncode (fst faded) =? 0)%Z then (None, snd faded)
    else
      let run := subprocess_run tool (splice_cmd self target_duration)
                   (outro_listed self (snd faded)) in
      (if (returncode (fst run) =? 0)%Z
          && bool_decide
               (is_Some (fs (snd run) !! (temp_dir self
                                            // "video_with_outro.mp4")))
       then Some (temp_dir self // "video_with_outro.mp4")
       else None,
       snd run).
Proof.
  unfold _create_outro_sequence, outro_faded.
  rewrite !bind_run.
  destruct (stdout (fst (subprocess_run tool _ w))) as [|d|wd ht|ch];
    cbn [fst snd]; rewrite !bind_run; cbv zeta;
    (destruct (negb (returncode _ =? 0)%Z); [reflexivity|]);
    rewrite !bind_run; cbn [write_text absolute path_exists fst snd];
    fold (splice_cmd self target_duration);
    unfold outro_listed;
    (destruct (returncode _ =? 0)%Z; [|reflexivity]);
    rewrite bind_run; cbn [path_exists fst snd andb];
    destruct (bool_decide _); reflexivity.
Qed.

(** X5.  Whatever the tools answer, a synthesis first runs the probe of the
    dimensions, the black fill and the fade, in this order.  The black fill
    has the probed dimensions, or 1280x720 when the probe yields none, and
    lasts [target - current + 0.5].  The fade never starts before 0, never
    earlier than 1.5 s before the end, and starts at 0 or at exactly
    [current - 1.5].  At most one more command, the splice, follows. *)
Theorem outro_opens_with_probe_black_fade (self : TimelineAssembler)
    (video_path : Path) (current_duration target_duration : Q)
    (cta_text : string) (w : World) :
  let dims :=
    match stdout (fst (tool (probe_dimensions_cmd video_path) w)) with
    | StreamsJson wd ht => (wd, ht)
    | _ => (1280, 720)%Z
    end in
  let fade_start := Qmax 0 (current_duration - 1.5) in
  let opening :=
    [probe_dimensions_cmd video_path;
     black_cmd (fst dims) (snd dims)
       (target_duration - current_duration + 0.5)
       (temp_dir self // "black_outro.mp4");
     fade_cmd video_path fade_start (temp_dir self // "video_faded.mp4")] in
  history (snd (outro_faded tool self video_path current_duration
                  target_duration w))
  = (history w ++ opening)%list
  ∧ (history (snd (_create_outro_sequence tool self video_path
                     current_duration target_duration cta_text w))
     = (history w ++ opening)%list
     ∨ history (snd (_create_outro_sequence tool self video_path
                       current_duration target_duration cta_text w))
       = (history w ++ opening ++ [splice_cmd self target_duration])%list)
  ∧ 0 <= fade_start
  ∧ current_duration - 1.5 <= fade_start
  ∧ (fade_start = 0 ∨ fade_start = current_duration - 1.5).
Proof.
  intros dims fade_start opening.
  assert (Hopen : history (snd (outro_faded tool self video_path
                                  current_duration target_duration w))
                  = (history w ++ opening)%list).
  { unfold outro_faded. rewrite !bind_run.
    rewrite !subprocess_run_history, subprocess_run_result.
    fold dims. rewrite py_max_Qmax. fold fade_start.
    rewrite <- !app_assoc. reflexivity. }
  split; [exact Hopen|]. split; [|split; [|split]].
  - rewrite create_outro_sequence_stages. cbv zeta.
    destruct (negb _); cbn [snd]; [left; exact Hopen|].
    right. rewrite subprocess_run_history. unfold outro_listed.
    cbn [history]. rewrite Hopen, <- app_assoc. reflexivity.
  - apply Q.le_max_l.
  - apply Q.le_max_r.
  - unfold fade_start, Qmax, GenericMinMax.gmax.
    destruct (0 ?= current_duration - 1.5)%Q; auto.
Qed.

(** X6.  A synthesis returns the spliced file exactly when the fade exited
    with 0, the splice exited with 0 and the spliced file exists afterwards;
    in every other case it returns nothing.  When the fade fails it stops at
    once: no list file is written and no splice is run. *)
Theorem outro_returns_path_iff (self : TimelineAssembler)
    (video_path : Path) (current_duration target_duration : Q)
    (cta_text : string) (w : World) :
  let result := _create_outro_sequence tool self video_path current_duration
                  target_duration cta_text w in
  let faded := outro_faded tool self video_path current_duration
                 target_duration w in
  let run := subprocess_run tool (splice_cmd self target_duration)
               (outro_listed self (snd faded)) in
  let spliced := temp_dir self // "video_with_outro.mp4" in
  (fst result = Some spliced
   ↔ returncode (fst faded) = 0%Z
     ∧ returncode (fst run) = 0%Z
     ∧ is_Some (fs (snd run) !! spliced))
  ∧ (fst result = Some spliced ∨ fst result = None)
  ∧ (returncode (fst faded) ≠ 0%Z → snd result = snd faded)
  ∧ (returncode (fst faded) = 0%Z → snd result = snd run).
Proof.
  intros result faded run spliced. unfold result.
  rewrite create_outro_sequence_stages. cbv zeta. fold faded run spliced.
  destruct (Z.eqb_spec (returncode (fst faded)) 0) as [Hf|Hf]; cbn [negb fst snd].
  2: { split; [|split; [|split]]; auto; try tauto.
       split; [discriminate | tauto]. }
  destruct (Z.eqb_spec (returncode (fst run)) 0) as [Hr|Hr]; cbn [andb].
  2: { split; [|split; [|split]]; auto; try tauto.
       split; [discriminate | tauto]. }
  destruct (bool_decide_reflect (is_Some (fs (snd run) !! spliced)))
    as [He|He].
  - split; [|split; [|split]]; auto; tauto.
  - split; [|split; [|split]]; auto; try tauto.
    split; [discriminate | tauto].
Qed.

End Synthesis.

Section Orchestration.

Context (tool : list Arg → World → Completed * gmap string File).

(** X7.  The concatenator has no guard for an empty cut: when no segment has
    a trimmed clip on disk (an empty timeline included), it writes an empty
    list file and still runs the concatenation command on it; what it
    returns is then the tool's verdict on the empty list. *)
Theorem concatenate_with_nothing_listed (self : TimelineAssembler)
    (timeline : Timeline) (output_path : Path) (w : World)
    (Hnone : Forall
               (λ s, ∀ p, trimmed_video_path s = Some p →
                          fs (list_opened self w) !! p = None)
               (segments timeline)) :
  let concat_list := temp_dir self // "concat_timeline.txt" in
  let run :=
    subprocess_run tool (concat_cmd concat_list output_path)
      (MkWorld (<[concat_list := Text []]> (fs (list_opened self w)))
         (cwd w) (history w)) in
  concat_list_written self timeline w = []
  ∧ concatenate_clips tool self timeline output_path w
    = ((returncode (fst run) =? 0)%Z, snd run)
  ∧ history (snd (concatenate_clips tool self timeline output_path w))
    = (history w ++ [concat_cmd concat_list output_path])%list.
Proof.
  intros concat_list run.
  assert (Hempty : concat_list_written self timeline w = []).
  { unfold concat_list_written. rewrite concat_lines_run. cbn [fst].
    induction Hnone as [|segment rest Hseg _ IH]; [reflexivity|].
    cbn [omap list_omap]. unfold clip_listed at 1.
    destruct (trimmed_video_path segment) as [p|]; [|exact IH].
    rewrite (Hseg p eq_refl).
    rewrite bool_decide_eq_false_2 by apply is_Some_None. exact IH. }
  pose proof (concatenate_clips_run tool self timeline output_path w) as Hrun.
  cbv zeta in Hrun. rewrite Hempty in Hrun. fold concat_list in Hrun.
  split; [exact Hempty|]. split; [exact Hrun|].
  rewrite Hrun. cbn [snd]. rewrite subprocess_run_history. reflexivity.
Qed.

(** X8.  Without usable music, that is without a music path or with a music
    path that is not on disk, the mix is the voice-only command: two inputs,
    the video and the voiceover, no filter graph, and the voiceover mapped as
    it is; the music volume plays no part. *)
Theorem mix_without_usable_music (self : TimelineAssembler)
    (video_path : Path) (voiceover_path music_path : option string)
    (output_path : Path) (music_volume : Q) (w : World)
    (Hmusic : ∀ m, music_path = Some m → fs w !! m = None) :
  let cmd := mix_voice_cmd video_path (py_str voiceover_path) output_path in
  history (snd (mix_final_audio tool self video_path voiceover_path
                  music_path output_path music_volume w))
  = (history w ++ [cmd])%list
  ∧ option_values "-i" cmd = [Lit video_path; Lit (py_str voiceover_path)]
  ∧ flag_value "-filter_complex" cmd = None
  ∧ option_values "-map" cmd
    = [Stream (InputStream 0 "v"); Stream (InputStream 1 "a")].
Proof.
  intros cmd. split; [|repeat split].
  rewrite mix_final_audio_run. cbn [snd]. rewrite subprocess_run_history.
  unfold mix_command, usable_music.
  destruct music_path as [m|]; [|reflexivity].
  rewrite bind_run. cbn [path_exists fst snd].
  rewrite (Hmusic m eq_refl).
  rewrite bool_decide_eq_false_2 by apply is_Some_None. reflexivity.
Qed.

Lemma concatenate_clips_history (self : TimelineAssembler)
    (timeline : Timeline) (output_path : Path) (w : World) :
  history (snd (concatenate_clips tool self timeline output_path w))
  = (history w
     ++ [concat_cmd (temp_dir self // "concat_timeline.txt") output_path])%list.
Proof.
  pose proof (concatenate_clips_run tool self timeline output_path w) as H.
  cbv zeta in H. rewrite H. cbn [snd].
  rewrite subprocess_run_history. reflexivity.
Qed.

(** The duration check, stage by stage. *)
Lemma duration_check_run (self : TimelineAssembler) (timeline : Timeline)
    (w : World) :
  duration_check tool self timeline w
  = let concatenated :=
      concatenate_clips tool self (prepared tool self timeline w)
        (concat_path self)
        (snd (prepare_timeline_clips tool self timeline 2.5 w)) in
    if fst concatenated
    then
      let probed := subprocess_run tool (probe_duration_cmd (concat_path self))
                      (snd concatenated) in
      (Some match stdout (fst probed) with
            | FormatJson d => d
            | _ => 0
            end,
       snd probed)
    else (None, snd concatenated).
Proof.
  unfold duration_check, prepared. rewrite !bind_run. cbv zeta.
  destruct (fst (concatenate_clips _ _ _ _ _)); cbn [negb];
    [rewrite bind_run|]; reflexivity.
Qed.

(** X9.  When the concatenation command fails, [assemble] stops there: it
    reports "Failed to concatenate clips" and the concatenation is the last
    command it runs; the result is not probed and nothing is mixed. *)
Theorem assemble_stops_when_concatenation_fails (self : TimelineAssembler)
    (timeline : Timeline) (output_path : Path) (music_volume : Q)
    (w : World)
    (Hfail : fst (concatenate_clips tool self (prepared tool self timeline w)
                    (concat_path self)
                    (snd (prepare_timeline_clips tool self timeline 2.5 w)))
             = false) :
  assemble tool self timeline output_path music_volume w
  = (Failure "Failed to concatenate clips",
     snd (concatenate_clips tool self (prepared tool self timeline w)
            (concat_path self)
            (snd (prepare_timeline_clips tool self timeline 2.5 w))))
  ∧ last (history (snd (assemble tool self timeline output_path music_volume
                          w)))
    = Some (concat_cmd (temp_dir self // "concat_timeline.txt")
              (concat_path self)).
Proof.
  assert (Heq : assemble tool self timeline output_path music_volume w
                = (Failure "Failed to concatenate clips",
                   snd (concatenate_clips tool self
                          (prepared tool self timeline w) (concat_path self)
                          (snd (prepare_timeline_clips tool self timeline 2.5
                                  w))))).
  { rewrite assemble_from_duration_check, duration_check_run. cbv zeta.
    rewrite Hfail. reflexivity. }
  split; [exact Heq|].
  rewrite Heq. cbn [snd]. rewrite concatenate_clips_history.
  apply last_snoc.
Qed.

Lemma assemble_outcomes_from_check (self : TimelineAssembler)
    (timeline : Timeline) (output_path : Path) (music_volume : Q)
    (w w3 : World) (video_duration : Q)
    (Hcheck : duration_check tool self timeline w
              = (Some video_duration, w3)) :
  let result :=
    fst (assemble tool self timeline output_path music_volume w) in
  let vo := voiceover_duration timeline in
  result = Failure "Failed to mix audio"
  ∨ result = Success output_path vo video_duration
  ∨ (video_duration < vo ∧ result = Success output_path vo (vo + 0.5)).
Proof.
  intros result vo. unfold result.
  rewrite assemble_from_duration_check, Hcheck.
  assert (Hmix : ∀ video d w',
            fst (mix_and_report tool self timeline output_path music_volume
                   video d w') = Failure "Failed to mix audio"
            ∨ fst (mix_and_report tool self timeline output_path music_volume
                     video d w') = Success output_path vo d).
  { intros video d w'. unfold mix_and_report. rewrite bind_run.
    destruct (fst (mix_final_audio _ _ _ _ _ _ _ _)); cbn; auto. }
  destruct (video_duration ?= voiceover_duration timeline)%Q eqn:Hcmp.
  - destruct (Hmix (concat_path self) video_duration w3); auto.
  - apply Qlt_alt in Hcmp.
    destruct (_create_outro_sequence _ _ _ _ _ _ w3) as [[p|] w4].
    + destruct (Hmix p (vo + 0.5) w4); auto.
    + destruct (Hmix (concat_path self) video_duration w4); auto.
  - destruct (Hmix (concat_path self) video_duration w3); auto.
Qed.

(** X10.  [assemble] has three outcomes only.  If the concatenation fails it
    reports that.  Otherwise it reports "Failed to mix audio", or success
    with the output path, the voiceover duration, and as video duration
    either the duration probed at the check or, only when that was below the
    voiceover duration, [voiceover_duration + 0.5]. *)
Theorem assemble_outcomes (self : TimelineAssembler) (timeline : Timeline)
    (output_path : Path) (music_volume : Q) (w : World) :
  let result :=
    fst (assemble tool self timeline output_path music_volume w) in
  let vo := voiceover_duration timeline in
  match fst (duration_check tool self timeline w) with
  | None => result = Failure "Failed to concatenate clips"
  | Some video_duration =>
      result = Failure "Failed to mix audio"
      ∨ result = Success output_path vo video_duration
      ∨ (video_duration < vo ∧ result = Success output_path vo (vo + 0.5))
  end.
Proof.
  intros result vo.
  destruct (duration_check tool self timeline w) as [[vd|] w3] eqn:Hcheck;
    cbn [fst].
  - exact (assemble_outcomes_from_check self timeline output_path
             music_volume w w3 vd Hcheck).
  - unfold result. rewrite assemble_from_duration_check, Hcheck. reflexivity.
Qed.

(** X15.  A concatenated file that cannot be probed counts as a video of
    0 s: when the concatenation succeeded and its probe yields no duration,
    the duration check holds 0, and a successful run then reports a video
    duration of 0 or, with a positive voiceover and a successful outro,
    [voiceover_duration + 0.5]. *)
Theorem unprobed_concatenation_counts_as_empty (self : TimelineAssembler)
    (timeline : Timeline) (output_path : Path) (music_volume : Q)
    (w : World)
    (Hok : fst (concatenate_clips tool self (prepared tool self timeline w)
                  (concat_path self)
                  (snd (prepare_timeline_clips tool self timeline 2.5 w)))
           = true)
    (Hprobe : ∀ d,
        stdout
          (fst (tool (probe_duration_cmd (concat_path self))
                  (snd (concatenate_clips tool self
                          (prepared tool self timeline w) (concat_path self)
                          (snd (prepare_timeline_clips tool self timeline 2.5
                                  w))))))
        ≠ FormatJson d) :
  let result :=
    fst (assemble tool self timeline output_path music_volume w) in
  let vo := voiceover_duration timeline in
  fst (duration_check tool self timeline w) = Some 0
  ∧ (result = Failure "Failed to mix audio"
     ∨ result = Success output_path vo 0
     ∨ (0 < vo ∧ result = Success output_path vo (vo + 0.5))).
Proof.
  intros result vo.
  assert (Hcheck : fst (duration_check tool self timeline w) = Some 0).
  { rewrite duration_check_run. cbv zeta. rewrite Hok. cbn [fst].
    rewrite subprocess_run_result.
    destruct (stdout _) as [|d|wd ht|ch] eqn:Hout; try reflexivity.
    exfalso. exact (Hprobe d eq_refl). }
  split; [exact Hcheck|].
  destruct (duration_check tool self timeline w) as [o w3] eqn:Hdc.
  cbn [fst] in Hcheck. subst o.
  exact (assemble_outcomes_from_check self timeline output_path music_volume
           w w3 0 Hdc).
Qed.

Lemma mix_command_shape (video_path : Path)
    (voiceover_path music_path : option string) (output_path : Path)
    (music_volume : Q) (w : World) :
  let cmd := mix_command video_path voiceover_path music_path output_path
               music_volume w in
  option_values "-i" cmd !! 0%nat = Some (Lit video_path)
  ∧ option_values "-i" cmd !! 1%nat = Some (Lit (py_str voiceover_path))
  ∧ last cmd = Some (Lit output_path).
Proof.
  unfold mix_command.
  destruct (fst (usable_music music_path w)); repeat split.
Qed.

(** X11.  Once the concatenation has succeeded, the last command of
    [assemble] is a mix whose video input is the concatenated file or the
    spliced outro and nothing else, whose second input is the timeline's
    voiceover path as [str] prints it, and whose output is the requested
    output path. *)
Theorem assemble_mixes_concat_or_outro (self : TimelineAssembler)
    (timeline : Timeline) (output_path : Path) (music_volume : Q)
    (w w3 : World) (video_duration : Q)
    (Hcheck : duration_check tool self timeline w
              = (Some video_duration, w3)) :
  ∃ cmd,
    last (history (snd (assemble tool self timeline output_path music_volume
                          w))) = Some cmd
    ∧ (option_values "-i" cmd !! 0%nat = Some (Lit (concat_path self))
       ∨ option_values "-i" cmd !! 0%nat
         = Some (Lit (temp_dir self // "video_with_outro.mp4")))
    ∧ option_values "-i" cmd !! 1%nat
      = Some (Lit (py_str (voiceover_path timeline)))
    ∧ last cmd = Some (Lit output_path).
Proof.
  rewrite assemble_from_duration_check, Hcheck.
  assert (Hmix : ∀ video d w',
            ∃ cmd,
              last (history (snd (mix_and_report tool self timeline
                                    output_path music_volume video d w')))
              = Some cmd
              ∧ option_values "-i" cmd !! 0%nat = Some (Lit video)
              ∧ option_values "-i" cmd !! 1%nat
                = Some (Lit (py_str (voiceover_path timeline)))
              ∧ last cmd = Some (Lit output_path)).
  { intros video d w'. eexists. rewrite mix_and_report_history.
    split; [apply last_snoc|]. apply mix_command_shape. }
  destruct (video_duration ?= voiceover_duration timeline)%Q.
  - destruct (Hmix (concat_path self) video_duration w3)
      as (cmd & Hl & H0 & H1 & Ho). exists cmd. auto.
  - destruct (_create_outro_sequence _ _ _ _ _ _ w3) as [[p|] w4] eqn:Ho.
    + destruct (create_outro_sequence_success tool _ _ _ _ _ _ _ _ Ho)
        as (-> & _).
      destruct (Hmix (temp_dir self // "video_with_outro.mp4")
                  (voiceover_duration timeline + 0.5) w4)
        as (cmd & Hl & H0 & H1 & Hout). exists cmd. auto.
    + destruct (Hmix (concat_path self) video_duration w4)
        as (cmd & Hl & H0 & H1 & Hout). exists cmd. auto.
  - destruct (Hmix (concat_path self) video_duration w3)
      as (cmd & Hl & H0 & H1 & Ho). exists cmd. auto.
Qed.

Lemma outro_faded_history (self : TimelineAssembler) (video_path : Path)
    (current_duration target_duration : Q) (w : World) :
  ∃ width height : Z,
    history (snd (outro_faded tool self video_path current_duration
                    target_duration w))
    = (history w ++
        [probe_dimensions_cmd video_path;
         black_cmd width height (target_duration - current_duration + 0.5)
           (temp_dir self // "black_outro.mp4");
         fade_cmd video_path (Qmax 0 (current_duration - 1.5))
           (temp_dir self // "video_faded.mp4")])%list.
Proof.
  unfold outro_faded. rewrite !bind_run. do 2 eexists.
  rewrite !subprocess_run_history, py_max_Qmax, <- !app_assoc. reflexivity.
Qed.

(** X12.  When the duration check finds the concatenated video shorter than
    the voiceover, [assemble] always attempts the outro: right after the
    check it runs the probe of the dimensions, a black fill of at least one
    second, namely [voiceover_duration + 0.5 - video_duration + 0.5], and
    the fade of the concatenated file; then come the splice, if the fade
    succeeded, and the mix. *)
Theorem assemble_attempts_outro_when_short (self : TimelineAssembler)
    (timeline : Timeline) (output_path : Path) (music_volume : Q)
    (w w3 : World) (video_duration : Q)
    (Hcheck : duration_check tool self timeline w
              = (Some video_duration, w3))
    (Hshort : video_duration < voiceover_duration timeline) :
  let vo := voiceover_duration timeline in
  ∃ (width height : Z) (rest : list (list Arg)),
    history (snd (assemble tool self timeline output_path music_volume w))
    = (history w3 ++
        [probe_dimensions_cmd (concat_path self);
         black_cmd width height (vo + 0.5 - video_duration + 0.5)
           (temp_dir self // "black_outro.mp4");
         fade_cmd (concat_path self) (Qmax 0 (video_duration - 1.5))
           (temp_dir self // "video_faded.mp4")] ++ rest)%list
    ∧ (length rest = 1 ∨ length rest = 2)%nat
    ∧ 1 <= vo + 0.5 - video_duration + 0.5.
Proof.
  intros vo.
  destruct (outro_faded_history self (concat_path self) video_duration
              (vo + 0.5) w3) as (width & height & Hopen).
  exists width, height.
  rewrite assemble_from_duration_check, Hcheck.
  rewrite (proj1 (Qlt_alt _ _) Hshort).
  rewrite create_outro_sequence_stages. cbv zeta. fold vo.
  destruct (negb _).
  - eexists. rewrite mix_and_report_history, Hopen, <- app_assoc.
    split; [reflexivity|]. split; [left; reflexivity | unfold vo; lra].
  - set (run := subprocess_run tool (splice_cmd self (vo + 0.5)) _).
    assert (Hrun : history (snd run)
                   = (history w3 ++
                       [probe_dimensions_cmd (concat_path self);
                        black_cmd width height
                          (vo + 0.5 - video_duration + 0.5)
                          (temp_dir self // "black_outro.mp4");
                        fade_cmd (concat_path self)
                          (Qmax 0 (video_duration - 1.5))
                          (temp_dir self // "video_faded.mp4")]
                       ++ [splice_cmd self (vo + 0.5)])%list).
    { unfold run. rewrite subprocess_run_history. unfold outro_listed.
      cbn [history]. rewrite Hopen, <- app_assoc. reflexivity. }
    destruct (_ && _); rewrite mix_and_report_history, Hrun, <- !app_assoc;
      eexists; (split; [reflexivity|]);
      (split; [right; reflexivity | unfold vo; lra]).
Qed.

End Orchestration.

(** ** File names and surplus inputs *)

Lemma digits_value_zero (s : string) :
  digits_value (String "0" s) = digits_value s.
Proof.
  unfold digits_value. cbn.
  destruct (NilEmpty.uint_of_string s); reflexivity.
Qed.

Lemma digits_value_minus (s : string) : digits_value (String "-" s) = None.
Proof.
  unfold digits_value. cbn.
  destruct (NilEmpty.uint_of_string s); reflexivity.
Qed.

Lemma zeros_cons (k : nat) (s : string) :
  String.concat "" (replicate (S k) "0") +:+ s
  = String "0" (String.concat "" (replicate k "0") +:+ s).
Proof. destruct k; reflexivity. Qed.

Lemma digits_value_zfill (width : nat) (s : string) :
  digits_value (zfill width s) = digits_value s.
Proof.
  unfold zfill.
  induction (width - String.length s)%nat as [|k IH]; [reflexivity|].
  rewrite zeros_cons, digits_value_zero. exact IH.
Qed.

Lemma zfill_nonempty (width : nat) (s : string) :
  s ≠ "" → zfill width s ≠ "".
Proof.
  intros Hs. unfold zfill. destruct (width - String.length s)%nat as [|k].
  - exact Hs.
  - rewrite zeros_cons. discriminate.
Qed.

Lemma string_of_uint_nonempty (d : Decimal.uint) :
  NilZero.string_of_uint d ≠ "".
Proof. destruct d; discriminate. Qed.

Lemma digits_value_canonical (n : N) :
  digits_value (NilZero.string_of_uint (N.to_uint n)) = Some n.
Proof.
  unfold digits_value.
  assert (H : ∀ d, NilEmpty.uint_of_string (NilZero.string_of_uint d)
                   = Some match d with
                          | Decimal.Nil => Decimal.D0 Decimal.Nil
                          | _ => d
                          end).
  { intros d. destruct d; try apply NilEmpty.usu. reflexivity. }
  rewrite H. cbn. f_equal.
  rewrite <- (Unsigned.of_to n) at 2.
  destruct (N.to_uint n); reflexivity.
Qed.

(** The index can be read back from its formatted field. *)
Lemma decode_fmt_03d (i : Z) : decode_index (fmt_03d i) = Some i.
Proof.
  unfold fmt_03d. destruct (Z.ltb_spec i 0) as [Hneg|Hpos].
  - set (d := NilZero.string_of_uint (N.to_uint (Z.abs_N i))).
    change (decode_index (String "-" (zfill 2 d)) = Some i).
    unfold decode_index. rewrite Ascii.eqb_refl.
    unfold d. rewrite digits_value_zfill, digits_value_canonical. cbn.
    f_equal. rewrite N2Z.inj_abs_N. lia.
  - pose proof (digits_value_zfill 3
                  (NilZero.string_of_uint (N.to_uint (Z.abs_N i)))) as H.
    rewrite digits_value_canonical in H.
    pose proof (zfill_nonempty 3 _
                  (string_of_uint_nonempty (N.to_uint (Z.abs_N i)))) as Hne.
    destruct (zfill 3 _) as [|c s']; [contradiction|].
    unfold decode_index.
    destruct (Ascii.eqb_spec c "-") as [->|Hc].
    + rewrite digits_value_minus in H. discriminate H.
    + rewrite H. cbn. f_equal. rewrite N2Z.inj_abs_N. lia.
Qed.

Lemma fmt_03d_inj (i j : Z) : fmt_03d i = fmt_03d j → i = j.
Proof.
  intros H. apply (f_equal decode_index) in H.
  rewrite !decode_fmt_03d in H. congruence.
Qed.

Lemma length_append (s t : string) :
  String.length (s +:+ t) = (String.length s + String.length t)%nat.
Proof.
  induction s as [|c s IH]; [reflexivity|]. simpl. f_equal. exact IH.
Qed.

Lemma append_inj_r (s1 s2 t : string) : s1 +:+ t = s2 +:+ t → s1 = s2.
Proof.
  revert s2. induction s1 as [|c1 s1 IH]; intros [|c2 s2] H.
  - reflexivity.
  - apply (f_equal String.length) in H.
    rewrite !length_append in H. simpl in H. lia.
  - apply (f_equal String.length) in H.
    rewrite !length_append in H. simpl in H. lia.
  - cbn in H. injection H as -> H. f_equal. apply IH, H.
Qed.

Lemma trimmed_path_inj (self : TimelineAssembler)
    (s1 s2 : TimelineSegment) :
  trimmed_path self s1 = trimmed_path self s2 → index s1 = index s2.
Proof.
  unfold trimmed_path, path_join. intros H.
  apply String.app_inj in H. apply String.app_inj in H.
  apply String.app_inj in H. apply append_inj_r in H.
  apply fmt_03d_inj, H.
Qed.

Lemma strictly_ascending_NoDup (l : list Z) :
  StronglySorted Z.lt l → NoDup l.
Proof.
  induction 1 as [|x l Hs IH Hx]; constructor; [|exact IH].
  intros Hin. rewrite Forall_forall in Hx. specialize (Hx x Hin). lia.
Qed.

(** X13.  No two segments of a built timeline are trimmed into the same
    file: the trimmed paths [temp_dir/trimmed_NNN.mp4] of its segments are
    pairwise distinct, also beyond index 999 where the field grows wider. *)
Theorem built_timeline_trimmed_paths_distinct (self : TimelineAssembler)
    (voiceover_segments : list VoiceoverSegment) (video_clips : list string)
    (voiceover_path : string) (voiceover_duration : Q)
    (music_path : option string) (timeline : Timeline)
    (Hbuilt : build_timeline voiceover_segments video_clips voiceover_path
                voiceover_duration music_path = Returned timeline) :
  NoDup (trimmed_path self <$> segments timeline).
Proof.
  injection Hbuilt as <-. cbn [segments].
  pose proof (strictly_ascending_NoDup _
                (zip_segments_ascending 0 voiceover_segments video_clips))
    as Hidx.
  induction (zip_segments 0 voiceover_segments video_clips) as [|s l IH];
    [constructor|].
  cbn [fmap list_fmap] in *. apply NoDup_cons in Hidx as [Hs Hl].
  constructor; [|apply IH, Hl].
  intros Hin. apply Hs.
  apply list_elem_of_fmap in Hin as (s' & Heq & Hin).
  apply list_elem_of_fmap. exists s'.
  split; [apply (trimmed_path_inj self), Heq | exact Hin].
Qed.

Lemma zip_segments_take (i : Z) (voiceover_segments : list VoiceoverSegment)
    (video_clips : list string) :
  let n := Nat.min (length voiceover_segments) (length video_clips) in
  zip_segments i (take n voiceover_segments) (take n video_clips)
  = zip_segments i voiceover_segments video_clips.
Proof.
  revert i video_clips.
  induction voiceover_segments as [|segment segs IH];
    intros i [|clip clips]; try reflexivity.
  cbn. f_equal. apply IH.
Qed.

(** X14.  Surplus inputs have no influence at all: [build_timeline], and
    with it the whole of [assemble_with_timing], gives the same result as on
    the two lists cut to their common length; clips beyond the last
    segment, and segments beyond the last clip, are never looked at. *)
Theorem surplus_inputs_are_ignored
    (tool : list Arg → World → Completed * gmap string File)
    (parent : string → string)
    (voiceover_segments : list VoiceoverSegment) (video_clips : list string)
    (voiceover_path : string) (voiceover_duration : Q) (output_path : Path)
    (music_path temp_dir : option string) (w : World) :
  let n := Nat.min (length voiceover_segments) (length video_clips) in
  build_timeline voiceover_segments video_clips voiceover_path
    voiceover_duration music_path
  = build_timeline (take n voiceover_segments) (take n video_clips)
      voiceover_path voiceover_duration music_path
  ∧ assemble_with_timing tool parent voiceover_segments video_clips
      voiceover_path voiceover_duration output_path music_path temp_dir w
    = assemble_with_timing tool parent (take n voiceover_segments)
        (take n video_clips) voiceover_path voiceover_duration output_path
        music_path temp_dir w.
Proof.
  intros n.
  assert (H : build_timeline voiceover_segments video_clips voiceover_path
                voiceover_duration music_path
              = build_timeline (take n voiceover_segments)
                  (take n video_clips) voiceover_path voiceover_duration
                  music_path).
  { unfold build_timeline, n. rewrite zip_segments_take. reflexivity. }
  split; [exact H|].
  unfold assemble_with_timing. rewrite <- H. reflexivity.
Qed.

(** ** The further properties on concrete runs *)

(** X3 at work: no clip of the ghost timeline is on disk. *)
Lemma prepare_without_sources_witness :
  prepare_timeline_clips (studio probe never) self ghost_timeline 2.5 disk
  = ((true, ghost_timeline), disk).
Proof.
  apply (prepare_without_sources (studio probe never) self ghost_timeline
           2.5 disk).
  repeat constructor; intros p Hp; injection Hp as <-;
    vm_compute; reflexivity.
Defined.

(** X4 at work: a 6 s segment over a 5 s clip. *)
Lemma prepare_segment_requests_floored_duration_witness :
  history (snd (prepare_segment (studio probe never) self 2.5
                  (MkTimelineSegment 0 "one" 0 6 (Some "/c/a.mp4") None)
                  disk))
  = [probe_duration_cmd "/c/a.mp4";
     trim_cmd "/c/a.mp4" "/tmp/t/trimmed_000.mp4"
       (Qmin (Qmax (6 - 0) 2.5) 5)].
Proof.
  pose proof (prepare_segment_requests_floored_duration (studio probe never)
                self 2.5
                (MkTimelineSegment 0 "one" 0 6 (Some "/c/a.mp4") None)
                "/c/a.mp4" disk eq_refl ltac:(vm_compute; eauto))
    as (Hhist & _).
  exact Hhist.
Defined.

(** X7 at work: nothing has been trimmed yet. *)
Lemma concatenate_with_nothing_listed_witness :
  concat_list_written self timeline disk = []
  ∧ history (snd (concatenate_clips (studio probe never) self timeline
                    "/tmp/t/timeline_concat.mp4" disk))
    = [concat_cmd "/tmp/t/concat_timeline.txt" "/tmp/t/timeline_concat.mp4"].
Proof.
  pose proof (concatenate_with_nothing_listed (studio probe never) self
                timeline "/tmp/t/timeline_concat.mp4" disk
                ltac:(repeat constructor; intros p Hp; discriminate Hp))
    as (Hempty & _ & Hhist).
  split; [exact Hempty | exact Hhist].
Defined.

(** X8 at work: a music path that is not on disk. *)
Lemma mix_without_usable_music_witness :
  history (snd (mix_final_audio (studio probe never) self
                  "/tmp/t/timeline_concat.mp4" (Some "/vo.mp3")
                  (Some "/nomusic.mp3") "/out/final.mp4" 0.15 disk))
  = [mix_voice_cmd "/tmp/t/timeline_concat.mp4" "/vo.mp3" "/out/final.mp4"].
Proof.
  pose proof (mix_without_usable_music (studio probe never) self
                "/tmp/t/timeline_concat.mp4" (Some "/vo.mp3")
                (Some "/nomusic.mp3") "/out/final.mp4" 0.15 disk
                ltac:(intros m Hm; injection Hm as <-;
                      vm_compute; reflexivity))
    as (Hhist & _).
  exact Hhist.
Defined.

(** X9 at work: the concatenation command fails. *)
Lemma assemble_stops_when_concatenation_fails_witness :
  fst (assemble (studio probe is_concat) self timeline "/out/final.mp4" 0.15
         disk)
  = Failure "Failed to concatenate clips"
  ∧ last (history (snd (assemble (studio probe is_concat) self timeline
                          "/out/final.mp4" 0.15 disk)))
    = Some (concat_cmd "/tmp/t/concat_timeline.txt"
              "/tmp/t/timeline_concat.mp4").
Proof.
  pose proof (assemble_stops_when_concatenation_fails
                (studio probe is_concat) self timeline "/out/final.mp4" 0.15
                disk ltac:(vm_compute; reflexivity))
    as (Heq & Hlast).
  split; [rewrite Heq; reflexivity | exact Hlast].
Defined.

(** X11 at work on the run with an outro. *)
Lemma assemble_mixes_concat_or_outro_witness :
  ∃ cmd,
    last (history (snd (assemble (studio probe never) self timeline
                          "/out/final.mp4" 0.15 disk))) = Some cmd
    ∧ option_values "-i" cmd !! 1%nat = Some (Lit "/vo.mp3")
    ∧ last cmd = Some (Lit "/out/final.mp4").
Proof.
  destruct (assemble_mixes_concat_or_outro (studio probe never) self timeline
              "/out/final.mp4" 0.15 disk
              (snd (duration_check (studio probe never) self timeline disk))
              11 (pair_eq_from_fst _ _ ltac:(vm_compute; reflexivity)))
    as (cmd & Hlast & _ & Hvoice & Hout).
  exists cmd. split; [exact Hlast|]. split; [exact Hvoice | exact Hout].
Defined.

(** X12 at work: 11 s of video under 12 s of voiceover. *)
Lemma assemble_attempts_outro_when_short_witness :
  ∃ (width height : Z) (rest : list (list Arg)),
    history (snd (assemble (studio probe never) self timeline
                    "/out/final.mp4" 0.15 disk))
    = (history (snd (duration_check (studio probe never) self timeline disk))
       ++ [probe_dimensions_cmd (concat_path self);
           black_cmd width height
             (voiceover_duration timeline + 0.5 - 11 + 0.5)
             (temp_dir self // "black_outro.mp4");
           fade_cmd (concat_path self) (Qmax 0 (11 - 1.5))
             (temp_dir self // "video_faded.mp4")] ++ rest)%list.
Proof.
  destruct (assemble_attempts_outro_when_short (studio probe never) self
              timeline "/out/final.mp4" 0.15 disk
              (snd (duration_check (studio probe never) self timeline disk))
              11 (pair_eq_from_fst _ _ ltac:(vm_compute; reflexivity))
              ltac:(vm_compute; reflexivity))
    as (width & height & rest & Hhist & _).
  exists width, height, rest. exact Hhist.
Defined.

(** X13 at work on the scenario's timeline. *)
Lemma built_timeline_trimmed_paths_distinct_witness :
  NoDup (trimmed_path self <$> segments timeline).
Proof.
  exact (built_timeline_trimmed_paths_distinct self narration clips
           "/vo.mp3" 12 None timeline eq_refl).
Defined.

(** X15 at work: the probe of the concatenation prints nothing usable. *)
Lemma unprobed_concatenation_counts_as_empty_witness :
  fst (duration_check (studio probe_blind never) self timeline disk) = Some 0.
Proof.
  pose proof (unprobed_concatenation_counts_as_empty
                (studio probe_blind never) self timeline "/out/final.mp4"
                0.15 disk ltac:(vm_compute; reflexivity)
                ltac:(intros d; vm_compute; discriminate))
    as (Hcheck & _).
  exact Hcheck.
Defined.

(** X16.  The mix command of [AudioMixer.mix_voice_and_music] carries
    neither [-shortest] nor [-t], and [duration=first] names the normalized
    voice, the first input of [amix]: by the rules of the muxer its output
    lasts as long as the longer of the video and the normalized voice,
    whatever the length of the music and whatever the configured volumes
    and rate. *)
Theorem audio_mixer_output_ignores_music_length
    (cfg : AudioMixer.AudioMixConfig)
    (video_path voice_norm music_norm output_path : Path)
    (len : string → Q) :
  let cmd := AudioMixer.mix_cmd cfg video_path voice_norm music_norm
               output_path in
  has_flag "-shortest" cmd = false
  ∧ flag_value "-t" cmd = None
  ∧ Ffmpeg.mux_duration len cmd
    = Some (Qmax (len video_path) (len voice_norm)).
Proof. repeat split. Qed.

(** ** Outro coverage *)

Lemma Qmin_takes_left (a b : Q) : a <= b → Qmin a b = a.
Proof.
  intros H. unfold Qmin, GenericMinMax.gmin.
  destruct (a ?= b)%Q eqn:Hcmp; try reflexivity.
  apply Qgt_alt in Hcmp. exfalso. revert Hcmp. apply Qle_not_lt, H.
Qed.

Section Coverage.

Context (tool : list Arg → World → Completed * gmap string File).

(** The list file of the splice names the faded video and then the black
    fill. *)
Lemma outro_listed_content (self : TimelineAssembler) (w : World) :
  fs (outro_listed self w) !! (temp_dir self // "outro_concat.txt")
  = Some (Text
            [file_line (fst (absolute (temp_dir self // "video_faded.mp4") w));
             file_line (fst (absolute (temp_dir self // "black_outro.mp4") w))]).
Proof. unfold outro_listed. cbn [fs]. apply lookup_insert_eq. Qed.

(** C2, as the code has it.  When the concatenated video is shorter than the
    voiceover and the synthesis returns a path:
    - the black fill was requested with the duration
      [(voiceover_duration + 0.5 - video_duration) + 0.5], the synthesizer's
      own gap towards the padded target plus 0.5 s;
    - the splice ran on a list file that names the faded video and then the
      black fill, with [-t voiceover_duration + 0.5], and produced the path
      returned;
    - when the faded video lasts as long as the concatenated one and the
      black fill as long as requested, the spliced video lasts exactly
      [voiceover_duration + 0.5], which is not below the voiceover
      duration;
    - [assemble] mixes onto the spliced file and, unless the mix fails,
      reports [voiceover_duration + 0.5] as the video duration. *)
Theorem outro_covers_voiceover (self : TimelineAssembler)
    (timeline : Timeline) (output_path : Path) (music_volume : Q)
    (w w3 w4 : World) (video_duration : Q) (p : string) (len : string → Q)
    (Hcheck : duration_check tool self timeline w = (Some video_duration, w3))
    (Hshort : video_duration < voiceover_duration timeline)
    (Hsome : _create_outro_sequence tool self (concat_path self)
               video_duration (voiceover_duration timeline + 0.5)
               (last_text (prepared tool self timeline w)) w3 = (Some p, w4))
    (Hfaded : len (fst (absolute (temp_dir self // "video_faded.mp4")
                          (snd (outro_faded tool self (concat_path self)
                                  video_duration
                                  (voiceover_duration timeline + 0.5) w3))))
              = video_duration)
    (Hblack : len (fst (absolute (temp_dir self // "black_outro.mp4")
                          (snd (outro_faded tool self (concat_path self)
                                  video_duration
                                  (voiceover_duration timeline + 0.5) w3))))
              = voiceover_duration timeline + 0.5 - video_duration + 0.5) :
  let vo := voiceover_duration timeline in
  let black := vo + 0.5 - video_duration + 0.5 in
  let faded := outro_faded tool self (concat_path self) video_duration
                 (vo + 0.5) w3 in
  let faded_abs :=
    fst (absolute (temp_dir self // "video_faded.mp4") (snd faded)) in
  let black_abs :=
    fst (absolute (temp_dir self // "black_outro.mp4") (snd faded)) in
  let splice := splice_cmd self (vo + 0.5) in
  (∃ width height : Z,
     history (snd faded)
     = (history w3 ++
         [probe_dimensions_cmd (concat_path self);
          black_cmd width height black (temp_dir self // "black_outro.mp4");
          fade_cmd (concat_path self) (Qmax 0 (video_duration - 1.5))
            (temp_dir self // "video_faded.mp4")])%list)
  ∧ fs (outro_listed self (snd faded)) !! (temp_dir self // "outro_concat.txt")
    = Some (Text [file_line faded_abs; file_line black_abs])
  ∧ w4 = snd (subprocess_run tool splice (outro_listed self (snd faded)))
  ∧ history w4 = (history (snd faded) ++ [splice])%list
  ∧ flag_value "-i" splice = Some (Lit (temp_dir self // "outro_concat.txt"))
  ∧ flag_value "-t" splice = Some (Num (vo + 0.5))
  ∧ p = temp_dir self // "video_with_outro.mp4"
  ∧ last splice = Some (Lit p)
  ∧ is_Some (fs w4 !! p)
  ∧ concat_duration len [faded_abs; black_abs] splice = vo + 0.5
  ∧ vo <= concat_duration len [faded_abs; black_abs] splice
  ∧ assemble tool self timeline output_path music_volume w
    = mix_and_report tool self timeline output_path music_volume p
        (vo + 0.5) w4
  ∧ (fst (assemble tool self timeline output_path music_volume w)
     = Failure "Failed to mix audio"
     ∨ fst (assemble tool self timeline output_path music_volume w)
       = Success output_path vo (vo + 0.5)).
Proof.
  intros vo black faded faded_abs black_abs splice.
  (* the run of the synthesis *)
  pose proof Hsome as Hrun.
  rewrite create_outro_sequence_stages in Hrun. cbv zeta in Hrun.
  fold vo in Hrun. fold faded in Hrun. fold splice in Hrun.
  destruct (negb (returncode (fst faded) =? 0)%Z); [discriminate Hrun|].
  destruct (returncode _ =? 0)%Z; cbn [andb] in Hrun; [|discriminate Hrun].
  destruct (bool_decide _) eqn:Hex; [|discriminate Hrun].
  injection Hrun as Hp Hw4.
  (* the length of the spliced video *)
  assert (Hduration : concat_duration len [faded_abs; black_abs] splice
                      = vo + 0.5).
  { unfold concat_duration.
    change (flag_value "-t" splice) with (Some (Num (vo + 0.5))).
    cbn [foldr]. unfold faded_abs, black_abs, faded, vo.
    rewrite Hfaded, Hblack. apply Qmin_takes_left. lra. }
  assert (Heq : assemble tool self timeline output_path music_volume w
                = mix_and_report tool self timeline output_path music_volume
                    p (vo + 0.5) w4).
  { rewrite assemble_from_duration_check, Hcheck.
    rewrite (proj1 (Qlt_alt _ _) Hshort), Hsome. reflexivity. }
  split; [apply (outro_faded_history tool)|].
  split; [apply outro_listed_content|].
  split; [symmetry; exact Hw4|].
  split.
  { rewrite <- Hw4, subprocess_run_history. reflexivity. }
  split; [reflexivity|].
  split; [reflexivity|].
  split; [symmetry; exact Hp|].
  split; [rewrite <- Hp; reflexivity|].
  split.
  { rewrite <- Hw4, <- Hp. exact (bool_decide_eq_true_1 _ Hex). }
  split; [exact Hduration|].
  split; [rewrite Hduration; lra|].
  split; [exact Heq|].
  rewrite Heq. unfold mix_and_report. rewrite bind_run.
  destruct (fst (mix_final_audio _ _ _ _ _ _ _ _)); cbn; [right | left];
    reflexivity.
Qed.

End Coverage.

(** C2 at work on the run with 11 s of video under 12 s of voiceover. *)
Lemma outro_covers_voiceover_witness :
  concat_duration outro_len
    ["/tmp/t/video_faded.mp4"; "/tmp/t/black_outro.mp4"]
    (splice_cmd self (12 + 0.5))
  = 12 + 0.5
  ∧ (fst (assemble (studio probe never) self timeline "/out/final.mp4" 0.15
            disk)
     = Failure "Failed to mix audio"
     ∨ fst (assemble (studio probe never) self timeline "/out/final.mp4"
              0.15 disk)
       = Success "/out/final.mp4" (voiceover_duration timeline)
           (voiceover_duration timeline + 0.5)).
Proof.
  pose proof (outro_covers_voiceover (studio probe never) self timeline
                "/out/final.mp4" 0.15 disk
                (snd (duration_check (studio probe never) self timeline disk))
                (snd (_create_outro_sequence (studio probe never) self
                        (concat_path self) 11
                        (voiceover_duration timeline + 0.5)
                        (last_text
                           (prepared (studio probe never) self timeline disk))
                        (snd (duration_check (studio probe never) self
                                timeline disk))))
                11 "/tmp/t/video_with_outro.mp4" outro_len
                (pair_eq_from_fst _ _ ltac:(vm_compute; reflexivity))
                ltac:(vm_compute; reflexivity)
                (pair_eq_from_fst _ _ ltac:(vm_compute; reflexivity))
                ltac:(vm_compute; reflexivity)
                ltac:(vm_compute; reflexivity))
    as (_ & _ & _ & _ & _ & _ & _ & _ & _ & Hduration & _ & _ & Hreport).
  split; [exact Hduration | exact Hreport].
Defined.
